(** * flow.manage: job status lattice, status reconciliation, submission gate

    A shallow embedding of [flow/manage.py].  Python values are modelled as
    follows:

    - a status is an [int]; [JobStatus] is the [IntEnum] and [value] its
      ordinal, so that comparisons are comparisons in [Z];
    - the status document (a Python [dict] from job-submission-id to [int])
      is an association list: a [dict] iterates in insertion order, and
      [update_status] iterates over it;
    - [job.document] and the scheduler's job collection are only looked up
      and assigned by key, they are [gmap]s;
    - exceptions are values of [exn]; a computation returns or raises and
      threads the store it works on;
    - [env.submit] is a function of the environment's own state: it may
      return a value or raise, and does not write to the job's document;
    - [assert] statements are executed (the interpreter does not run with
      [-O]); the calls of [logger] have no effect on the stores and are
      left out. *)

From Stdlib Require Import ZArith Lia List Bool.
From stdpp Require Import gmap strings list fin_maps.

Local Open Scope Z_scope.

(** ** The status enumeration *)

Module JobStatus.

(** [class JobStatus(enum.IntEnum)] *)
Inductive t : Set :=
| unknown | registered | inactive | submitted
| held | queued | active | error
| user.

(** The ordinal of a member, [int(status)]. *)
Definition value (s : t) : Z :=
  match s with
  | unknown => 1
  | registered => 2
  | inactive => 3
  | submitted => 4
  | held => 5
  | queued => 6
  | active => 7
  | error => 8
  | user => 128
  end.

(** The members declared before the comment [# User stati are >= 128.] *)
Definition builtin : list t :=
  [unknown; registered; inactive; submitted; held; queued; active; error].

(** [IntEnum] compares by ordinal. *)
Definition ltb (a b : t) : bool := value a <? value b.
Definition leb (a b : t) : bool := value a <=? value b.

(** [# User stati are >= 128.] *)
Definition is_user_status (z : Z) : bool := value user <=? z.

Definition eq_dec (a b : t) : {a = b} + {a <> b}.
Proof. decide equality. Defined.

End JobStatus.

#[global] Instance JobStatus_eq_decision : EqDecision JobStatus.t :=
  JobStatus.eq_dec.

(** Python's builtin [max(a, b)]: the first argument is kept unless the
    second is strictly greater. *)
Definition py_max {A : Type} (gt : A -> A -> bool) (a b : A) : A :=
  if gt b a then b else a.

(** [max] on two enumeration members. *)
Definition max_status (a b : JobStatus.t) : JobStatus.t :=
  py_max (fun x y => JobStatus.ltb y x) a b.

(** [max] on two [int]s. *)
Definition max_int (a b : Z) : Z := py_max Z.gtb a b.

(** ** Exceptions

    The classes the module meets.  [except Exception] and [except KeyError]
    select by class, so the model keeps the part of Python's hierarchy that
    decides them: [KeyboardInterrupt], [SystemExit] and [GeneratorExit]
    derive from [BaseException] only, every other builtin class derives
    from [Exception].  [OtherException] and [OtherBaseException] stand for
    the classes of the environment (a scheduler's own errors); their
    argument identifies the exception object. *)

Inductive exn : Type :=
| KeyError (key : string)
| TypeError
| AssertionError
| OtherException (what : string)
| KeyboardInterrupt
| SystemExit
| GeneratorExit
| OtherBaseException (what : string).

(** [isinstance(e, Exception)] *)
Definition isinstance_Exception (e : exn) : bool :=
  match e with
  | KeyError _ | TypeError | AssertionError | OtherException _ => true
  | KeyboardInterrupt | SystemExit | GeneratorExit | OtherBaseException _ => false
  end.

(** [isinstance(e, KeyError)] *)
Definition isinstance_KeyError (e : exn) : bool :=
  match e with
  | KeyError _ => true
  | _ => false
  end.

(** ** Computations over a store that return or raise *)

Inductive result (A : Type) : Type :=
| Returns (a : A)
| Raises (e : exn).

Arguments Returns {A} a.
Arguments Raises {A} e.

Definition M (St A : Type) : Type := St -> result A * St.

Definition ret {St A : Type} (a : A) : M St A := fun s => (Returns a, s).

Definition raise {St A : Type} (e : exn) : M St A := fun s => (Raises e, s).

Definition bind {St A B : Type} (m : M St A) (k : A -> M St B) : M St B :=
  fun s =>
    match m s with
    | (Returns a, s') => k a s'
    | (Raises e, s') => (Raises e, s')
    end.

(** [try: body / except cls as e: handler]; an exception outside [cls]
    passes through, the store keeps what [body] did to it. *)
Definition try_except {St A : Type}
    (body : M St A) (cls : exn -> bool) (handler : exn -> M St A) : M St A :=
  fun s =>
    match body s with
    | (Returns a, s') => (Returns a, s')
    | (Raises e, s') => if cls e then handler e s' else (Raises e, s')
    end.

(** [try: body / except cls: handler / else: orelse]; the [else] suite is
    not guarded by the handler. *)
Definition try_except_else {St A B : Type}
    (body : M St A) (cls : exn -> bool) (handler : exn -> M St B)
    (orelse : A -> M St B) : M St B :=
  fun s =>
    match body s with
    | (Returns a, s') => orelse a s'
    | (Raises e, s') => if cls e then handler e s' else (Raises e, s')
    end.

Declare Scope py_scope.
Delimit Scope py_scope with py.

Notation "x <- m ;; k" := (bind m (fun x => k))
  (at level 100, m at next level, right associativity) : py_scope.
Notation "m ;; k" := (bind m (fun _ => k))
  (at level 100, right associativity) : py_scope.

Local Open Scope py_scope.

(** ** The status document: a [dict] in insertion order *)

Abbreviation status_doc := (list (string * Z)).

(** [d.get(k)] *)
Fixpoint od_get (k : string) (d : status_doc) : option Z :=
  match d with
  | [] => None
  | (k', v) :: d' => if decide (k = k') then Some v else od_get k d'
  end.

(** [d[k] = v]: an existing key keeps its place, a new one goes last. *)
Fixpoint od_set (k : string) (v : Z) (d : status_doc) : status_doc :=
  match d with
  | [] => [(k, v)]
  | (k', v') :: d' =>
      if decide (k = k') then (k, v) :: d' else (k', v') :: od_set k v d'
  end.

(** [d.keys()] *)
Definition od_keys (d : status_doc) : list string := map fst d.

(** ** The job document, [job.document]

    Only its ["status"] entry is used; its values are status documents. *)

Abbreviation document := (gmap string status_doc).

(** [job.document[key]] *)
Definition doc_getitem (key : string) : M document status_doc :=
  fun doc =>
    match doc !! key with
    | Some v => (Returns v, doc)
    | None => (Raises (KeyError key), doc)
    end.

(** [job.document.get(key, dflt)] *)
Definition doc_get (key : string) (dflt : status_doc) : M document status_doc :=
  fun doc => (Returns (default dflt (doc !! key)), doc).

(** [job.document.setdefault(key, dflt)] *)
Definition doc_setdefault (key : string) (dflt : status_doc)
  : M document status_doc :=
  fun doc =>
    match doc !! key with
    | Some v => (Returns v, doc)
    | None => (Returns dflt, <[key := dflt]> doc)
    end.

(** [job.document[key] = v] *)
Definition doc_setitem (key : string) (v : status_doc) : M document unit :=
  fun doc => (Returns tt, <[key := v]> doc).

(** The status document of a job document; an absent one has no entries. *)
Definition status_of (doc : document) : status_doc :=
  default [] (doc !! "status"%string).

(** ** Scheduler jobs *)

(** [class ClusterJob]: [__init__(self, jobid, status=None)] *)
Record ClusterJob : Type := mkClusterJob {
  _job_id : string;
  _status : option Z
}.

(** [ClusterJob.status] *)
Definition status (cjob : ClusterJob) : option Z := _status cjob.

(** [ClusterJob.name] *)
Definition name (cjob : ClusterJob) : string := _job_id cjob.

(** [warnings.warn(msg, DeprecationWarning)]: the store is the list of the
    warnings issued so far (the warning is issued, not turned into an
    error by a filter). *)
Inductive warning : Type :=
| DeprecationWarning (msg : string).

Definition warn (wn : warning) : M (list warning) unit :=
  fun issued => (Returns tt, issued ++ [wn]).

(** [self.status() == member]: [None] equals no member, an [int] equals
    the member of that ordinal. *)
Definition status_eq (cjob : ClusterJob) (member : JobStatus.t) : bool :=
  match status cjob with
  | Some s => s =? JobStatus.value member
  | None => false
  end.

(** The deprecated accessors of [ClusterJob] (lines 56 to 78). *)
Definition registered (cjob : ClusterJob) : M (list warning) bool :=
  warn (DeprecationWarning "Use status() instead.") ;;
  ret (status_eq cjob JobStatus.registered).

Definition submitted (cjob : ClusterJob) : M (list warning) bool :=
  warn (DeprecationWarning "Use status() instead.") ;;
  ret (status_eq cjob JobStatus.submitted).

Definition active (cjob : ClusterJob) : M (list warning) bool :=
  warn (DeprecationWarning "Use status() instead.") ;;
  ret (status_eq cjob JobStatus.active).

Definition queued (cjob : ClusterJob) : M (list warning) bool :=
  warn (DeprecationWarning "Use status() instead.") ;;
  ret (status_eq cjob JobStatus.queued).

Definition completed (cjob : ClusterJob) : M (list warning) bool :=
  warn (DeprecationWarning "Use status() instead.") ;;
  ret (status_eq cjob JobStatus.inactive).

Definition held (cjob : ClusterJob) : M (list warning) bool :=
  warn (DeprecationWarning "Use status() instead.") ;;
  ret (status_eq cjob JobStatus.held).

(** The six accessors, in the order of the source. *)
Definition accessors : list (ClusterJob -> M (list warning) bool) :=
  [registered; submitted; active; queued; completed; held].

(** Lift a pure outcome into a computation. *)
Definition lift_result {St A : Type} (r : result A) : M St A := fun s => (r, s).

(** [_status_local(jobsid)] *)
Definition _status_local (jobsid : string) : Z :=
  JobStatus.value JobStatus.unknown.

(** [_status_scheduler(jobsid, scheduler_jobs)].  [max] of a [JobStatus]
    and [None] raises [TypeError]. *)
Definition _status_scheduler (jobsid : string)
    (scheduler_jobs : gmap string ClusterJob) : result Z :=
  let cjob := scheduler_jobs !! jobsid in
  match cjob with
  | None => Returns (JobStatus.value JobStatus.unknown)
  | Some cjob =>
      match status cjob with
      | Some reported =>
          Returns (max_int (JobStatus.value JobStatus.registered) reported)
      | None => Raises TypeError
      end
  end.

(** Lines 108 to 110: the status [update_status] computes for one
    job-submission-id. *)
Definition reconciled_status (scheduler_jobs : option (gmap string ClusterJob))
    (jobsid : string) : result Z :=
  let status := _status_local jobsid in
  match scheduler_jobs with
  | Some scheduler_jobs =>
      match _status_scheduler jobsid scheduler_jobs with
      | Returns s => Returns (max_int s status)
      | Raises e => Raises e
      end
  | None => Returns status
  end.

(** The [for] loop of [update_status], over the keys still to visit;
    [status_doc] is the local variable of that name. *)
Fixpoint update_status_loop (scheduler_jobs : option (gmap string ClusterJob))
    (keys : list string) (status_doc : status_doc) : M document unit :=
  match keys with
  | [] => ret tt
  | jobsid :: keys' =>
      status <- lift_result (reconciled_status scheduler_jobs jobsid) ;;
      let status_doc := od_set jobsid status status_doc in
      doc_setitem "status" status_doc ;;
      update_status_loop scheduler_jobs keys' status_doc
  end.

(** [update_status(job, scheduler_jobs=None)], on [job.document]. *)
Definition update_status (scheduler_jobs : option (gmap string ClusterJob))
  : M document unit :=
  status_doc <- doc_setdefault "status" [] ;;
  update_status_loop scheduler_jobs (od_keys status_doc) status_doc.

(** ** The submission gate *)

(** A job handle; [str(job)] is its identifier. *)
Record Job : Type := mkJob { job_str : string }.

(** ['{}-{}-{}'.format(project, job, identifier)] *)
Definition format_jobsid (project job identifier : string) : string :=
  project +:+ "-" +:+ job +:+ "-" +:+ identifier.

Section Submit.

Context {StatePoint Script Args EnvState : Type}.

(** A project: [str(project)] and [project.open_job]. *)
Record Project : Type := mkProject {
  project_str : string;
  open_job : StatePoint -> Job
}.

(** What a call of [env.submit] does: it returns a value, of which only
    the truth value is used, or raises. *)
Inductive env_outcome : Type :=
| EnvReturns (truthy : bool)
| EnvRaises (e : exn).

(** The scheduler environment: [env.submit(jobsid=, script=, pretend=,
    *args, **kwargs)] acts on the environment's own state; it is handed
    neither the job nor its document. *)
Record Environment : Type := mkEnvironment {
  env_submit : string -> Script -> bool -> Args -> EnvState -> env_outcome * EnvState
}.

(** What happened, in order: an assignment of the status document to
    [job.document] by [set_status], a call of [env.submit]. *)
Inductive event : Type :=
| Persisted (jobsid : string) (value : Z)
| EnvSubmit (jobsid : string) (script : Script) (pretend : bool) (args : Args).

(** The store [submit] works on: the document of the opened job, the state
    of the environment, and the events so far. *)
Record world : Type := mkWorld {
  job_document : document;
  env_state : EnvState;
  history : list event
}.

Definition on_document {A : Type} (m : M document A) : M world A :=
  fun w =>
    let (r, doc') := m (job_document w) in
    (r, mkWorld doc' (env_state w) (history w)).

Definition record (ev : event) : M world unit :=
  fun w => (Returns tt, mkWorld (job_document w) (env_state w) (history w ++ [ev])).

(** The calls of [env.submit] among the events. *)
Definition is_env_submit (ev : event) : bool :=
  match ev with
  | EnvSubmit _ _ _ _ => true
  | Persisted _ _ => false
  end.

Definition env_submit_calls (h : list event) : list event :=
  List.filter is_env_submit h.

(** [env.submit(jobsid=jobsid, script=script, pretend=pretend, *args,
    **kwargs)] *)
Definition call_env_submit (env : Environment) (jobsid : string)
    (script : Script) (pretend : bool) (args : Args) : M world bool :=
  fun w =>
    let (out, st') := env_submit env jobsid script pretend args (env_state w) in
    let w' := mkWorld (job_document w) st'
                (history w ++ [EnvSubmit jobsid script pretend args]) in
    match out with
    | EnvReturns truthy => (Returns truthy, w')
    | EnvRaises e => (Raises e, w')
    end.

(** The inner function [set_status(value)] of [submit]. *)
Definition set_status (jobsid : string) (value : Z) : M world unit :=
  status_doc <- on_document (doc_get "status" []) ;;
  let status_doc := od_set jobsid value status_doc in
  on_document (doc_setitem "status" status_doc) ;;
  record (Persisted jobsid value).

(** [job.document['status'][jobsid]] *)
Definition getitem_status (jobsid : string) : M world Z :=
  status_doc <- on_document (doc_getitem "status") ;;
  match od_get jobsid status_doc with
  | Some v => ret v
  | None => raise (KeyError jobsid)
  end.

(** The first [try] statement of [submit] (lines 135 to 139). *)
Definition determine_status (jobsid : string) : M world Z :=
  try_except (getitem_status jobsid) isinstance_KeyError
    (fun _ =>
       set_status jobsid (JobStatus.value JobStatus.registered) ;;
       getitem_status jobsid).

(** [assert pretend or env.submit(...)]: [or] does not evaluate its second
    operand when the first is true. *)
Definition assert_submitted (env : Environment) (jobsid : string)
    (script : Script) (pretend : bool) (args : Args) : M world unit :=
  if pretend then ret tt
  else
    ok <- call_env_submit env jobsid script pretend args ;;
    if ok then ret tt else raise AssertionError.

(** The second [try] statement of [submit] (lines 146 to 156). *)
Definition attempt_submission (env : Environment) (jobsid : string)
    (script : Script) (pretend : bool) (args : Args) : M world bool :=
  try_except_else
    (assert_submitted env jobsid script pretend args)
    isinstance_Exception
    (fun e =>
       set_status jobsid (JobStatus.value JobStatus.error) ;;
       raise e)
    (fun _ =>
       set_status jobsid (JobStatus.value JobStatus.submitted) ;;
       ret true).

(** The gate (lines 140 to 145): [true] when the call goes on. *)
Definition passes_gate (force : bool) (status : Z) : bool :=
  if negb force then
    if status >=? JobStatus.value JobStatus.submitted then false else true
  else true.

(** [submit(env, project, state_point, script, identifier='default',
    force=False, pretend=False, *args, **kwargs)] *)
Definition submit (env : Environment) (project : Project)
    (state_point : StatePoint) (script : Script) (identifier : string)
    (force pretend : bool) (args : Args) : M world bool :=
  let job := open_job project state_point in
  let jobsid := format_jobsid (project_str project) (job_str job) identifier in
  status <- determine_status jobsid ;;
  if passes_gate force status
  then attempt_submission env jobsid script pretend args
  else ret false.

(** The job-submission-id [submit] derives. *)
Definition jobsid_of (project : Project) (state_point : StatePoint)
    (identifier : string) : string :=
  format_jobsid (project_str project)
    (job_str (open_job project state_point)) identifier.

End Submit.

Arguments Project : clear implicits.
Arguments Environment : clear implicits.
Arguments event : clear implicits.
Arguments world : clear implicits.
Arguments env_outcome : clear implicits.

(** The status recorded for a job-submission-id in the job's document. *)
Definition recorded_status {Script Args EnvState : Type} (jobsid : string)
    (w : world Script Args EnvState) : option Z :=
  od_get jobsid (status_of (job_document w)).

(** The status the gate of [submit] compares: the recorded one, or
    [registered] for an id without an entry (lines 135 to 139). *)
Definition status_at_gate {Script Args EnvState : Type} (jobsid : string)
    (w : world Script Args EnvState) : Z :=
  default (JobStatus.value JobStatus.registered) (recorded_status jobsid w).

(** The world right after [set_status(value)]. *)
Definition after_set_status {Script Args EnvState : Type} (jobsid : string)
    (value : Z) (w : world Script Args EnvState) : world Script Args EnvState :=
  mkWorld
    (<["status"%string := od_set jobsid value (status_of (job_document w))]>
       (job_document w))
    (env_state w)
    (history w ++ [Persisted jobsid value]).

(** The world right after a call of [env.submit] that left the environment
    in state [st']. *)
Definition after_env_submit {Script Args EnvState : Type} (jobsid : string)
    (script : Script) (pretend : bool) (args : Args) (st' : EnvState)
    (w : world Script Args EnvState) : world Script Args EnvState :=
  mkWorld (job_document w) st'
    (history w ++ [EnvSubmit jobsid script pretend args]).

(** The world in which the gate is checked. *)
Definition at_gate {Script Args EnvState : Type} (jobsid : string)
    (w : world Script Args EnvState) : world Script Args EnvState :=
  match recorded_status jobsid w with
  | Some _ => w
  | None => after_set_status jobsid (JobStatus.value JobStatus.registered) w
  end.

(** The keys the loop of [update_status] gets through: those before the
    first one for which no status can be computed. *)
Fixpoint visited (scheduler_jobs : option (gmap string ClusterJob))
    (keys : list string) : list string :=
  match keys with
  | [] => []
  | jobsid :: keys' =>
      match reconciled_status scheduler_jobs jobsid with
      | Returns _ => jobsid :: visited scheduler_jobs keys'
      | Raises _ => []
      end
  end.

(** How the loop of [update_status] ends on these keys. *)
Fixpoint loop_outcome (scheduler_jobs : option (gmap string ClusterJob))
    (keys : list string) : result unit :=
  match keys with
  | [] => Returns tt
  | jobsid :: keys' =>
      match reconciled_status scheduler_jobs jobsid with
      | Returns _ => loop_outcome scheduler_jobs keys'
      | Raises e => Raises e
      end
  end.

(** [update_status(job, scheduler_jobs)] on the job of the world. *)
Definition update_job_status {Script Args EnvState : Type}
    (scheduler_jobs : option (gmap string ClusterJob))
  : M (world Script Args EnvState) unit :=
  on_document (update_status scheduler_jobs).

(** ** Sample projects, environments and documents *)

Module Sample.

Definition project : Project unit :=
  mkProject "proj" (fun _ => mkJob "0a1b").

(** The job-submission-id of the sample job under the default identifier. *)
Definition jobsid : string := "proj-0a1b-default".

(** Environments whose state counts the calls of [submit]. *)
Definition env_accepting : Environment string unit nat :=
  mkEnvironment (fun _ _ _ _ n => (EnvReturns true, S n)).

Definition env_refusing : Environment string unit nat :=
  mkEnvironment (fun _ _ _ _ n => (EnvReturns false, S n)).

Definition env_raising (e : exn) : Environment string unit nat :=
  mkEnvironment (fun _ _ _ _ n => (EnvRaises e, S n)).

(** A job that was never submitted: an empty document. *)
Definition fresh : world string unit nat := mkWorld ∅ 0%nat [].

(** A job whose document records [value] for the sample id. *)
Definition recorded (value : Z) : world string unit nat :=
  mkWorld {[ "status"%string := [(jobsid, value)] ]} 0%nat [].

(** A status document with three entries and a scheduler that knows two
    of them. *)
Definition three : document :=
  {[ "status"%string := [("p-a-default"%string, 4); ("p-b-default"%string, 6);
                         ("p-c-default"%string, 8)] ]}.

Definition scheduler_jobs : gmap string ClusterJob :=
  {[ "p-a-default"%string := mkClusterJob "p-a-default" (Some 3);
     "p-b-default"%string := mkClusterJob "p-b-default" (Some 1);
     "p-z-default"%string := mkClusterJob "p-z-default" (Some 7) ]}.

(** A scheduler whose job was constructed without a status. *)
Definition unreported : gmap string ClusterJob :=
  {[ "p-b-default"%string := mkClusterJob "p-b-default" None ]}.

(** A scheduler job that is queued, one that never got a status. *)
Definition cjob_queued : ClusterJob := mkClusterJob "p-a-default" (Some 6).

Definition cjob_blank : ClusterJob := mkClusterJob "p-b-default" None.

(** A job whose document records [value] under another identifier. *)
Definition nightly (value : Z) : world string unit nat :=
  mkWorld {[ "status"%string := [("proj-0a1b-nightly"%string, value)] ]} 0%nat [].

(** A scheduler that has the sample job in its queue. *)
Definition scheduler_queued : gmap string ClusterJob :=
  {[ jobsid := mkClusterJob jobsid (Some 6) ]}.

End Sample.

(** * Properties *)

(** ** Python's [max] *)

Lemma max_int_Zmax (a b : Z) : max_int a b = Z.max a b.
Proof.
  unfold max_int, py_max. destruct (Z.gtb_spec b a); lia.
Qed.

Lemma max_status_value (a b : JobStatus.t) :
  JobStatus.value (max_status a b) = Z.max (JobStatus.value a) (JobStatus.value b).
Proof. destruct a, b; reflexivity. Qed.

Lemma value_inj (a b : JobStatus.t) :
  JobStatus.value a = JobStatus.value b -> a = b.
Proof. destruct a, b; simpl; intros H; try reflexivity; discriminate H. Qed.

Example sample_jobsid :
  jobsid_of Sample.project tt "default" = Sample.jobsid.
Proof. reflexivity. Qed.


(** C7: the members of the enumeration are totally ordered by their ordinal,
    in the order unknown < registered < inactive < submitted < held < queued
    < active < error; [max] of two members is the one of higher ordinal; the
    user range starts at 128, above every built-in member. *)
Theorem JobStatus_order_and_max :
  (JobStatus.value JobStatus.unknown < JobStatus.value JobStatus.registered
   < JobStatus.value JobStatus.inactive)
  /\ (JobStatus.value JobStatus.inactive < JobStatus.value JobStatus.submitted
      < JobStatus.value JobStatus.held)
  /\ (JobStatus.value JobStatus.held < JobStatus.value JobStatus.queued
      < JobStatus.value JobStatus.active)
  /\ JobStatus.value JobStatus.active < JobStatus.value JobStatus.error
  /\ (forall a b : JobStatus.t,
        JobStatus.leb a b || JobStatus.leb b a = true)
  /\ (forall a b : JobStatus.t,
        JobStatus.leb a b && JobStatus.leb b a = bool_decide (a = b))
  /\ (forall a b c : JobStatus.t,
        implb (JobStatus.leb a b && JobStatus.leb b c) (JobStatus.leb a c) = true)
  /\ (forall a b : JobStatus.t,
        max_status a b = (if JobStatus.ltb a b then b else a)
        /\ JobStatus.value (max_status a b)
           = Z.max (JobStatus.value a) (JobStatus.value b))
  /\ JobStatus.value JobStatus.user = 128
  /\ (forall z : Z, JobStatus.is_user_status z = (128 <=? z))
  /\ Forall (fun s => JobStatus.value s < JobStatus.value JobStatus.user)
        JobStatus.builtin.
Proof.
  split_and!.
  all: try (cbn; lia).
  all: try (intros [] []; reflexivity).
  all: try (intros [] [] []; reflexivity).
  - intros a b. split; [destruct a, b; reflexivity | apply max_status_value].
  - reflexivity.
  - unfold JobStatus.builtin. repeat constructor.
Qed.

(** ** The status document as a dictionary *)

Lemma od_get_set_eq (k : string) (v : Z) (d : status_doc) :
  od_get k (od_set k v d) = Some v.
Proof.
  induction d as [|[k' v'] d IH]; simpl.
  - by rewrite decide_True.
  - destruct (decide (k = k')) as [->|Hne]; simpl.
    + by rewrite decide_True.
    + by rewrite decide_False.
Qed.

Lemma od_get_set_ne (k k' : string) (v : Z) (d : status_doc) :
  k ≠ k' -> od_get k' (od_set k v d) = od_get k' d.
Proof.
  intros Hne. induction d as [|[k0 v0] d IH]; simpl.
  - by rewrite decide_False.
  - destruct (decide (k = k0)) as [->|Hk]; simpl.
    + by rewrite !(decide_False (P := k' = k0)).
    + by rewrite IH.
Qed.

Lemma od_get_is_Some (k : string) (d : status_doc) :
  k ∈ od_keys d <-> is_Some (od_get k d).
Proof.
  unfold od_keys. induction d as [|[k' v'] d IH]; simpl.
  - split; [intros H; inversion H | intros [? ?]; discriminate].
  - rewrite elem_of_cons. destruct (decide (k = k')) as [->|Hne].
    + split; eauto.
    + rewrite <- IH. split; [intros [?|?]; done | by right].
Qed.

Lemma od_get_None (k : string) (d : status_doc) :
  k ∉ od_keys d <-> od_get k d = None.
Proof. rewrite od_get_is_Some, eq_None_not_Some. tauto. Qed.

Lemma od_keys_set (k : string) (v : Z) (d : status_doc) :
  k ∈ od_keys d -> od_keys (od_set k v d) = od_keys d.
Proof.
  unfold od_keys. induction d as [|[k' v'] d IH]; simpl; intros Hin.
  - inversion Hin.
  - destruct (decide (k = k')) as [->|Hne]; simpl; [done|].
    apply elem_of_cons in Hin as [?|Hin]; [done|]. by rewrite IH.
Qed.

(** ** Status reconciliation *)

(** [update_status] runs its loop on a document that holds the status
    document under ["status"]. *)
Lemma update_status_unfold (sj : option (gmap string ClusterJob)) (doc : document) :
  exists doc0 : document,
    doc0 !! "status"%string = Some (status_of doc)
    /\ update_status sj doc
       = update_status_loop sj (od_keys (status_of doc)) (status_of doc) doc0.
Proof.
  unfold update_status, bind, doc_setdefault, status_of.
  destruct (doc !! "status"%string) as [sd|] eqn:Hdoc; simpl.
  - by exists doc.
  - eexists. split; [|reflexivity]. apply lookup_insert_eq.
Qed.

(** The loop rewrites values of keys of the status document only: whatever
    the outcome, the keys are those it started with, in the same order. *)
Lemma update_status_loop_keys (sj : option (gmap string ClusterJob))
    (ks : list string) :
  forall (sd : status_doc) (doc : document),
    Forall (fun k => k ∈ od_keys sd) ks ->
    doc !! "status"%string = Some sd ->
    exists sd' : status_doc,
      (update_status_loop sj ks sd doc).2
        !! "status"%string = Some sd'
      /\ od_keys sd' = od_keys sd.
Proof.
  induction ks as [|k ks IH]; intros sd doc Hks Hdoc; simpl.
  - by exists sd.
  - apply Forall_cons in Hks as [Hk Hks].
    unfold bind at 1, lift_result.
    destruct (reconciled_status sj k) as [s|e]; simpl; [|by exists sd].
    unfold bind at 1, doc_setitem.
    destruct (IH (od_set k s sd) (<["status"%string := od_set k s sd]> doc))
      as (sd' & Hsd' & Hkeys).
    + by rewrite od_keys_set.
    + apply lookup_insert_eq.
    + exists sd'. split; [done|]. by rewrite Hkeys, od_keys_set.
Qed.

(** When every visited key gets a status, the loop returns and has
    recorded it for each. *)
Lemma update_status_loop_returns (sj : option (gmap string ClusterJob))
    (f : string -> Z) (ks : list string) :
  forall (sd : status_doc) (doc : document),
    (forall k, k ∈ ks -> reconciled_status sj k = Returns (f k)) ->
    doc !! "status"%string = Some sd ->
    exists (doc' : document) (sd' : status_doc),
      update_status_loop sj ks sd doc = (Returns tt, doc')
      /\ doc' !! "status"%string = Some sd'
      /\ forall k, (k ∈ ks -> od_get k sd' = Some (f k))
                   /\ (k ∉ ks -> od_get k sd' = od_get k sd).
Proof.
  induction ks as [|k0 ks IH]; intros sd doc Hf Hdoc; simpl.
  - exists doc, sd. split_and!; [done..|].
    intros k. split; [intros H; inversion H | done].
  - unfold bind at 1, lift_result. rewrite (Hf k0) by left. simpl.
    unfold bind at 1, doc_setitem.
    destruct (IH (od_set k0 (f k0) sd)
                 (<["status"%string := od_set k0 (f k0) sd]> doc))
      as (doc' & sd' & Hrun & Hdoc' & Hget).
    + intros k Hk. apply Hf. by right.
    + apply lookup_insert_eq.
    + exists doc', sd'. split_and!; [done..|].
      intros k. destruct (Hget k) as [Hin Hout]. split.
      * intros Hk. destruct (decide (k ∈ ks)) as [Hks|Hks]; [by apply Hin|].
        apply elem_of_cons in Hk as [->|Hk]; [|done].
        rewrite Hout by done. apply od_get_set_eq.
      * intros Hk. apply not_elem_of_cons in Hk as [Hne Hks].
        rewrite Hout by done. by apply od_get_set_ne.
Qed.

(** Without scheduler jobs the status is the local one. *)
Lemma reconciled_status_local (jobsid : string) :
  reconciled_status None jobsid = Returns (JobStatus.value JobStatus.unknown).
Proof. reflexivity. Qed.

(** An id the scheduler does not know is [unknown]. *)
Lemma reconciled_status_absent (sj : gmap string ClusterJob) (jobsid : string) :
  sj !! jobsid = None ->
  reconciled_status (Some sj) jobsid = Returns (JobStatus.value JobStatus.unknown).
Proof.
  intros Hsj. unfold reconciled_status, _status_scheduler. by rewrite Hsj.
Qed.

(** An id the scheduler knows, with a reported status. *)
Lemma reconciled_status_present (sj : gmap string ClusterJob) (jobsid : string)
    (cjob : ClusterJob) (reported : Z) :
  sj !! jobsid = Some cjob ->
  status cjob = Some reported ->
  reconciled_status (Some sj) jobsid
  = Returns (Z.max (JobStatus.value JobStatus.registered) reported).
Proof.
  intros Hsj Hst. unfold reconciled_status, _status_scheduler.
  rewrite Hsj, Hst. unfold _status_local.
  rewrite !max_int_Zmax. f_equal. simpl. lia.
Qed.

(** A scheduler job constructed without a status stops the update. *)
Lemma reconciled_status_no_report (sj : gmap string ClusterJob) (jobsid : string)
    (cjob : ClusterJob) :
  sj !! jobsid = Some cjob ->
  status cjob = None ->
  reconciled_status (Some sj) jobsid = Raises TypeError.
Proof.
  intros Hsj Hst. unfold reconciled_status, _status_scheduler.
  by rewrite Hsj, Hst.
Qed.

(** C5, as the code has it: with scheduler jobs given, and a status
    reported by each scheduler job the status document names,
    [update_status] returns and records for every id of the status
    document: [unknown] when the scheduler has no
    job of that id, otherwise the maximum of [registered] and the reported
    status, so [registered] for a reported [unknown] and [inactive] for a
    reported [inactive]. *)
Theorem update_status_with_scheduler (sj : gmap string ClusterJob) (doc : document) :
  (forall k cjob, k ∈ od_keys (status_of doc) -> sj !! k = Some cjob ->
                  is_Some (status cjob)) ->
  exists doc' : document,
    update_status (Some sj) doc = (Returns tt, doc')
    /\ forall k, k ∈ od_keys (status_of doc) ->
         match sj !! k with
         | None =>
             od_get k (status_of doc') = Some (JobStatus.value JobStatus.unknown)
         | Some cjob =>
             exists reported,
               status cjob = Some reported
               /\ od_get k (status_of doc')
                  = Some (Z.max (JobStatus.value JobStatus.registered) reported)
               /\ (reported = JobStatus.value JobStatus.unknown ->
                   od_get k (status_of doc')
                   = Some (JobStatus.value JobStatus.registered))
               /\ (reported = JobStatus.value JobStatus.inactive ->
                   od_get k (status_of doc')
                   = Some (JobStatus.value JobStatus.inactive))
         end.
Proof.
  intros Hrep.
  destruct (update_status_unfold (Some sj) doc) as (doc0 & Hdoc0 & ->).
  pose (f := fun k : string =>
               match sj !! k with
               | None => JobStatus.value JobStatus.unknown
               | Some cjob =>
                   Z.max (JobStatus.value JobStatus.registered)
                     (default 0 (status cjob))
               end).
  destruct (update_status_loop_returns (Some sj) f
              (od_keys (status_of doc)) (status_of doc) doc0)
    as (doc' & sd' & Hrun & Hdoc' & Hget); [|done|].
  - intros k Hk. unfold f.
    destruct (sj !! k) as [cjob|] eqn:Hsj.
    + destruct (Hrep k cjob Hk Hsj) as [r Hr]. rewrite Hr. simpl.
      by apply reconciled_status_present with cjob.
    + by apply reconciled_status_absent.
  - exists doc'. split; [done|]. intros k Hk.
    assert (Hk' : od_get k (status_of doc') = Some (f k)).
    { unfold status_of at 1. rewrite Hdoc'. simpl. by apply Hget. }
    unfold f in Hk'. destruct (sj !! k) as [cjob|] eqn:Hsj; [|done].
    destruct (Hrep k cjob Hk Hsj) as [r Hr]. rewrite Hr in Hk'. simpl in Hk'.
    exists r. split_and!; [done..| |]; intros ->; by rewrite Hk'.
Qed.

(** C6: without scheduler jobs [update_status] returns, and every entry of
    the status document is then [unknown]. *)
Theorem update_status_without_scheduler (doc : document) :
  exists doc' : document,
    update_status None doc = (Returns tt, doc')
    /\ od_keys (status_of doc') = od_keys (status_of doc)
    /\ (forall k, k ∈ od_keys (status_of doc) <->
                  od_get k (status_of doc') = Some (JobStatus.value JobStatus.unknown))
    /\ Forall (fun k => od_get k (status_of doc')
                        = Some (JobStatus.value JobStatus.unknown))
         (od_keys (status_of doc')).
Proof.
  destruct (update_status_unfold None doc) as (doc0 & Hdoc0 & Hunf).
  destruct (update_status_loop_returns None
              (fun _ => JobStatus.value JobStatus.unknown)
              (od_keys (status_of doc)) (status_of doc) doc0)
    as (doc' & sd' & Hrun & Hdoc' & Hget); [by intros|done|].
  destruct (update_status_loop_keys None (od_keys (status_of doc))
              (status_of doc) doc0) as (sd'' & Hsd'' & Hkeys);
    [by apply Forall_forall|done|].
  rewrite Hrun in Hsd''. simpl in Hsd''. rewrite Hdoc' in Hsd''.
  injection Hsd'' as <-.
  assert (Hsd : status_of doc' = sd') by (unfold status_of; by rewrite Hdoc').
  exists doc'. rewrite Hunf, Hsd. split_and!; [done..| |].
  - intros k. split; [apply Hget|].
    intros Hk. rewrite <- Hkeys. apply od_get_is_Some. by rewrite Hk.
  - rewrite Hkeys. apply Forall_forall. intros k. apply Hget.
Qed.

(** C9: whatever the scheduler jobs and whatever the outcome,
    [update_status] leaves the keys of the status document as they were:
    none is added, none is removed. *)
Theorem update_status_keeps_keys (sj : option (gmap string ClusterJob))
    (doc : document) :
  od_keys (status_of (update_status sj doc).2) = od_keys (status_of doc)
  /\ (forall k, is_Some (od_get k (status_of (update_status sj doc).2))
                <-> is_Some (od_get k (status_of doc))).
Proof.
  destruct (update_status_unfold sj doc) as (doc0 & Hdoc0 & ->).
  destruct (update_status_loop_keys sj (od_keys (status_of doc))
              (status_of doc) doc0) as (sd' & Hsd' & Hkeys);
    [by apply Forall_forall|done|].
  assert (Hk : od_keys (status_of (update_status_loop sj
                 (od_keys (status_of doc)) (status_of doc) doc0).2)
               = od_keys (status_of doc)).
  { unfold status_of at 1. by rewrite Hsd'. }
  split; [done|]. intros k. by rewrite <- !od_get_is_Some, Hk.
Qed.

(** ** The submission gate *)

Section SubmitFacts.

Context {StatePoint Script Args EnvState : Type}.

Implicit Types (w : world Script Args EnvState) (jobsid : string).
Implicit Types (env : Environment Script Args EnvState).

Lemma set_status_eq jobsid (value : Z) w :
  set_status jobsid value w = (Returns tt, after_set_status jobsid value w).
Proof. reflexivity. Qed.

Lemma recorded_after_set_status jobsid (value : Z) w :
  recorded_status jobsid (after_set_status jobsid value w) = Some value.
Proof.
  unfold recorded_status, after_set_status, status_of; simpl.
  rewrite lookup_insert_eq. simpl. apply od_get_set_eq.
Qed.

Lemma recorded_after_set_status_ne jobsid (k : string) (value : Z) w :
  jobsid ≠ k ->
  recorded_status k (after_set_status jobsid value w) = recorded_status k w.
Proof.
  intros Hne. unfold recorded_status, after_set_status; simpl.
  unfold status_of at 1. rewrite lookup_insert_eq. simpl.
  by apply od_get_set_ne.
Qed.

Lemma getitem_status_recorded jobsid w (s : Z) :
  recorded_status jobsid w = Some s ->
  getitem_status jobsid w = (Returns s, w).
Proof.
  unfold recorded_status, status_of, getitem_status, bind, on_document,
    doc_getitem.
  destruct w as [doc st h]; simpl.
  destruct (doc !! "status"%string) as [sd|]; simpl; [|discriminate].
  by intros ->.
Qed.

Lemma getitem_status_absent jobsid w :
  recorded_status jobsid w = None ->
  exists key, getitem_status jobsid w = (Raises (KeyError key), w).
Proof.
  unfold recorded_status, status_of, getitem_status, bind, on_document,
    doc_getitem.
  destruct w as [doc st h]; simpl.
  destruct (doc !! "status"%string) as [sd|]; simpl.
  - intros ->. by exists jobsid.
  - intros _. by exists "status"%string.
Qed.

(** The first [try] statement always returns: the recorded status, or
    [registered] after recording it. *)
Lemma determine_status_eq jobsid w :
  determine_status jobsid w = (Returns (status_at_gate jobsid w), at_gate jobsid w).
Proof.
  unfold determine_status, try_except, status_at_gate, at_gate.
  destruct (recorded_status jobsid w) as [s|] eqn:Hrec; simpl.
  - by rewrite (getitem_status_recorded _ _ _ Hrec).
  - destruct (getitem_status_absent _ _ Hrec) as [key ->]. simpl.
    unfold bind at 1. rewrite set_status_eq.
    apply getitem_status_recorded, recorded_after_set_status.
Qed.

Lemma recorded_at_gate jobsid w :
  recorded_status jobsid (at_gate jobsid w) = Some (status_at_gate jobsid w).
Proof.
  unfold at_gate, status_at_gate.
  destruct (recorded_status jobsid w) as [s|] eqn:Hrec; simpl; [done|].
  apply recorded_after_set_status.
Qed.

Lemma env_state_at_gate jobsid w : env_state (at_gate jobsid w) = env_state w.
Proof. unfold at_gate. by destruct (recorded_status jobsid w). Qed.

Lemma env_submit_calls_app (h1 h2 : list (event Script Args)) :
  env_submit_calls (h1 ++ h2) = env_submit_calls h1 ++ env_submit_calls h2.
Proof. apply List.filter_app. Qed.

Lemma calls_at_gate jobsid w :
  env_submit_calls (history (at_gate jobsid w)) = env_submit_calls (history w).
Proof.
  unfold at_gate. destruct (recorded_status jobsid w); [done|]. simpl.
  rewrite env_submit_calls_app. simpl. apply app_nil_r.
Qed.

(** [submit] is the gate, then the attempt, in the world [at_gate]. *)
Lemma submit_eq env (project : Project StatePoint) (state_point : StatePoint)
    (script : Script) (identifier : string) (force pretend : bool) (args : Args) w :
  let jobsid := jobsid_of project state_point identifier in
  submit env project state_point script identifier force pretend args w
  = if passes_gate force (status_at_gate jobsid w)
    then attempt_submission env jobsid script pretend args (at_gate jobsid w)
    else (Returns false, at_gate jobsid w).
Proof.
  intros jobsid. subst jobsid. unfold jobsid_of, submit, bind.
  rewrite determine_status_eq. by destruct (passes_gate _ _).
Qed.

(** The four ways the attempt can go. *)
Lemma attempt_pretend env jobsid (script : Script) (args : Args) w :
  attempt_submission env jobsid script true args w
  = (Returns true,
     after_set_status jobsid (JobStatus.value JobStatus.submitted) w).
Proof. reflexivity. Qed.

Lemma attempt_accepted env jobsid (script : Script) (args : Args) w
    (st' : EnvState) :
  env_submit env jobsid script false args (env_state w) = (EnvReturns true, st') ->
  attempt_submission env jobsid script false args w
  = (Returns true,
     after_set_status jobsid (JobStatus.value JobStatus.submitted)
       (after_env_submit jobsid script false args st' w)).
Proof.
  intros Hcall.
  unfold attempt_submission, try_except_else, assert_submitted, bind,
    call_env_submit.
  by rewrite Hcall.
Qed.

Lemma attempt_refused env jobsid (script : Script) (args : Args) w
    (st' : EnvState) :
  env_submit env jobsid script false args (env_state w) = (EnvReturns false, st') ->
  attempt_submission env jobsid script false args w
  = (Raises AssertionError,
     after_set_status jobsid (JobStatus.value JobStatus.error)
       (after_env_submit jobsid script false args st' w)).
Proof.
  intros Hcall.
  unfold attempt_submission, try_except_else, assert_submitted, bind,
    call_env_submit.
  by rewrite Hcall.
Qed.

Lemma attempt_raised env jobsid (script : Script) (args : Args) w
    (e : exn) (st' : EnvState) :
  env_submit env jobsid script false args (env_state w) = (EnvRaises e, st') ->
  attempt_submission env jobsid script false args w
  = (Raises e,
     if isinstance_Exception e
     then after_set_status jobsid (JobStatus.value JobStatus.error)
            (after_env_submit jobsid script false args st' w)
     else after_env_submit jobsid script false args st' w).
Proof.
  intros Hcall.
  unfold attempt_submission, try_except_else, assert_submitted, bind,
    call_env_submit.
  rewrite Hcall. simpl. by destruct (isinstance_Exception e).
Qed.

Lemma passes_gate_blocked (s : Z) :
  JobStatus.value JobStatus.submitted <= s -> passes_gate false s = false.
Proof.
  intros Hs. unfold passes_gate. simpl negb. cbv iota.
  destruct (Z.geb_spec s (JobStatus.value JobStatus.submitted)); [done|lia].
Qed.

Lemma passes_gate_forced (s : Z) : passes_gate true s = true.
Proof. reflexivity. Qed.

Lemma status_at_gate_recorded jobsid w (s : Z) :
  recorded_status jobsid w = Some s ->
  status_at_gate jobsid w = s /\ at_gate jobsid w = w.
Proof. intros Hrec. unfold status_at_gate, at_gate. by rewrite Hrec. Qed.

(** A call that is blocked changes nothing. *)
Lemma submit_blocked env (project : Project StatePoint) (state_point : StatePoint)
    (script : Script) (identifier : string) (pretend : bool) (args : Args) w
    (s : Z) :
  recorded_status (jobsid_of project state_point identifier) w = Some s ->
  JobStatus.value JobStatus.submitted <= s ->
  submit env project state_point script identifier false pretend args w
  = (Returns false, w).
Proof.
  intros Hrec Hs. rewrite submit_eq.
  destruct (status_at_gate_recorded _ _ _ Hrec) as [-> ->].
  by rewrite passes_gate_blocked.
Qed.

(** A call that returns [True] has recorded [submitted]. *)
Lemma submit_success_recorded env (project : Project StatePoint)
    (state_point : StatePoint) (script : Script) (identifier : string)
    (force pretend : bool) (args : Args) w w' :
  submit env project state_point script identifier force pretend args w
  = (Returns true, w') ->
  recorded_status (jobsid_of project state_point identifier) w'
  = Some (JobStatus.value JobStatus.submitted).
Proof.
  rewrite submit_eq.
  destruct (passes_gate _ _); [|discriminate].
  destruct pretend.
  - rewrite attempt_pretend. intros [= <-]. apply recorded_after_set_status.
  - destruct (env_submit env (jobsid_of project state_point identifier) script
                false args
                (env_state (at_gate (jobsid_of project state_point identifier) w)))
      as [[[|]|e] st'] eqn:Hcall.
    + rewrite (attempt_accepted _ _ _ _ _ _ Hcall). intros [= <-].
      apply recorded_after_set_status.
    + by rewrite (attempt_refused _ _ _ _ _ _ Hcall).
    + by rewrite (attempt_raised _ _ _ _ _ _ _ Hcall).
Qed.

(** C1: when the status recorded for the job-submission-id is [submitted]
    or higher, [submit] without [force] returns [False] and leaves the
    world as it was: no call of [env.submit], the same document.  So, after
    a call of [submit] that returned [True], which has recorded
    [submitted], a second call without [force] returns [False] and changes
    nothing. *)
Theorem submit_not_forced_is_blocked :
  (forall env (project : Project StatePoint) (state_point : StatePoint)
          (script : Script) (identifier : string) (pretend : bool)
          (args : Args) w (s : Z),
      recorded_status (jobsid_of project state_point identifier) w = Some s ->
      JobStatus.value JobStatus.submitted <= s ->
      exists w',
        submit env project state_point script identifier false pretend args w
        = (Returns false, w')
        /\ w' = w
        /\ env_submit_calls (history w') = env_submit_calls (history w)
        /\ job_document w' = job_document w)
  /\ (forall env (project : Project StatePoint) (state_point : StatePoint)
             (script : Script) (identifier : string) (force pretend : bool)
             (args : Args) w w1,
         submit env project state_point script identifier force pretend args w
         = (Returns true, w1) ->
         recorded_status (jobsid_of project state_point identifier) w1
         = Some (JobStatus.value JobStatus.submitted)
         /\ forall env2 (script2 : Script) (pretend2 : bool) (args2 : Args),
              submit env2 project state_point script2 identifier false pretend2
                args2 w1
              = (Returns false, w1)).
Proof.
  split.
  - intros env project state_point script identifier pretend args w s Hrec Hs.
    exists w. split_and!; [|done..]. by apply submit_blocked with s.
  - intros env project state_point script identifier force pretend args w w1 Hrun.
    pose proof (submit_success_recorded _ _ _ _ _ _ _ _ _ _ Hrun) as Hrec.
    split; [done|]. intros env2 script2 pretend2 args2.
    by apply submit_blocked with (JobStatus.value JobStatus.submitted).
Qed.

(** C2, as the code has it: when the call reaches the attempt and
    [env.submit] raises, [submit] raises the same exception; it has recorded
    [error] when the exception is an instance of [Exception], and has
    recorded nothing for it otherwise. *)
Theorem submit_reraises env (project : Project StatePoint)
    (state_point : StatePoint) (script : Script) (identifier : string)
    (force : bool) (args : Args) w (e : exn) (st' : EnvState) :
  passes_gate force
    (status_at_gate (jobsid_of project state_point identifier) w) = true ->
  env_submit env (jobsid_of project state_point identifier) script false args
    (env_state w) = (EnvRaises e, st') ->
  exists w',
    submit env project state_point script identifier force false args w
    = (Raises e, w')
    /\ env_state w' = st'
    /\ recorded_status (jobsid_of project state_point identifier) w'
       = Some (if isinstance_Exception e
               then JobStatus.value JobStatus.error
               else status_at_gate (jobsid_of project state_point identifier) w).
Proof.
  set (jobsid := jobsid_of project state_point identifier).
  intros Hgate Hcall. rewrite submit_eq. fold jobsid. rewrite Hgate.
  rewrite <- (env_state_at_gate jobsid w) in Hcall.
  rewrite (attempt_raised _ _ _ _ _ _ _ Hcall).
  eexists. split; [reflexivity|].
  destruct (isinstance_Exception e); simpl.
  - split; [done|]. apply recorded_after_set_status.
  - split; [done|]. apply recorded_at_gate.
Qed.

(** C3: a call with [pretend] that passes the gate returns [True] and has
    recorded [submitted], without any call of [env.submit]. *)
Theorem submit_pretend env (project : Project StatePoint)
    (state_point : StatePoint) (script : Script) (identifier : string)
    (force : bool) (args : Args) w :
  passes_gate force
    (status_at_gate (jobsid_of project state_point identifier) w) = true ->
  exists w',
    submit env project state_point script identifier force true args w
    = (Returns true, w')
    /\ recorded_status (jobsid_of project state_point identifier) w'
       = Some (JobStatus.value JobStatus.submitted)
    /\ env_submit_calls (history w') = env_submit_calls (history w)
    /\ env_state w' = env_state w.
Proof.
  set (jobsid := jobsid_of project state_point identifier).
  intros Hgate. rewrite submit_eq. fold jobsid. rewrite Hgate.
  rewrite attempt_pretend. eexists. split; [reflexivity|]. split_and!.
  - apply recorded_after_set_status.
  - simpl. rewrite env_submit_calls_app. simpl.
    rewrite app_nil_r. apply calls_at_gate.
  - simpl. apply env_state_at_gate.
Qed.

(** The attempt only adds events. *)
Lemma attempt_history env jobsid (script : Script) (pretend : bool)
    (args : Args) w :
  exists later,
    history (attempt_submission env jobsid script pretend args w).2
    = history w ++ later.
Proof.
  destruct pretend.
  - rewrite attempt_pretend. simpl. eauto.
  - destruct (env_submit env jobsid script false args (env_state w))
      as [[[|]|e] st'] eqn:Hcall.
    + rewrite (attempt_accepted _ _ _ _ _ _ Hcall). simpl.
      rewrite <- app_assoc. eauto.
    + rewrite (attempt_refused _ _ _ _ _ _ Hcall). simpl.
      rewrite <- app_assoc. eauto.
    + rewrite (attempt_raised _ _ _ _ _ _ _ Hcall). simpl.
      destruct (isinstance_Exception e); simpl; [rewrite <- app_assoc|]; eauto.
Qed.

(** Without [pretend] the attempt calls [env.submit] once, first. *)
Lemma attempt_calls env jobsid (script : Script) (args : Args) w :
  env_submit_calls
    (history (attempt_submission env jobsid script false args w).2)
  = env_submit_calls (history w) ++ [EnvSubmit jobsid script false args].
Proof.
  destruct (env_submit env jobsid script false args (env_state w))
    as [[[|]|e] st'] eqn:Hcall.
  - rewrite (attempt_accepted _ _ _ _ _ _ Hcall). simpl.
    rewrite !env_submit_calls_app. simpl. by rewrite app_nil_r.
  - rewrite (attempt_refused _ _ _ _ _ _ Hcall). simpl.
    rewrite !env_submit_calls_app. simpl. by rewrite app_nil_r.
  - rewrite (attempt_raised _ _ _ _ _ _ _ Hcall). simpl.
    destruct (isinstance_Exception e); simpl;
      rewrite !env_submit_calls_app; simpl; by rewrite ?app_nil_r.
Qed.

(** C4: when the status document has no entry for the job-submission-id,
    the first thing [submit] does is to record [registered] for it in the
    job's document; the gate is checked, and the attempt made, in the world
    that holds this entry. *)
Theorem submit_registers_first env (project : Project StatePoint)
    (state_point : StatePoint) (script : Script) (identifier : string)
    (force pretend : bool) (args : Args) w :
  recorded_status (jobsid_of project state_point identifier) w = None ->
  exists w1,
    determine_status (jobsid_of project state_point identifier) w
    = (Returns (JobStatus.value JobStatus.registered), w1)
    /\ recorded_status (jobsid_of project state_point identifier) w1
       = Some (JobStatus.value JobStatus.registered)
    /\ (forall k, k ≠ jobsid_of project state_point identifier ->
                  recorded_status k w1 = recorded_status k w)
    /\ history w1
       = history w
         ++ [Persisted (jobsid_of project state_point identifier)
               (JobStatus.value JobStatus.registered)]
    /\ env_state w1 = env_state w
    /\ submit env project state_point script identifier force pretend args w
       = (if passes_gate force (JobStatus.value JobStatus.registered)
          then attempt_submission env
                 (jobsid_of project state_point identifier) script pretend args
          else ret false) w1
    /\ exists later,
         history
           (submit env project state_point script identifier force pretend
              args w).2
         = history w
           ++ Persisted (jobsid_of project state_point identifier)
                (JobStatus.value JobStatus.registered) :: later.
Proof.
  set (jobsid := jobsid_of project state_point identifier).
  intros Hrec.
  exists (after_set_status jobsid (JobStatus.value JobStatus.registered) w).
  assert (Hst : status_at_gate jobsid w = JobStatus.value JobStatus.registered)
    by (unfold status_at_gate; by rewrite Hrec).
  assert (Hw : at_gate jobsid w
               = after_set_status jobsid
                   (JobStatus.value JobStatus.registered) w)
    by (unfold at_gate; by rewrite Hrec).
  split_and!.
  - by rewrite determine_status_eq, Hst, Hw.
  - apply recorded_after_set_status.
  - intros k Hk. by apply recorded_after_set_status_ne.
  - reflexivity.
  - reflexivity.
  - rewrite submit_eq. fold jobsid. rewrite Hst, Hw.
    by destruct (passes_gate _ _).
  - rewrite submit_eq. fold jobsid. rewrite Hst, Hw.
    replace (passes_gate force (JobStatus.value JobStatus.registered))
      with true by (by destruct force).
    destruct (attempt_history env jobsid script pretend args
                (after_set_status jobsid
                   (JobStatus.value JobStatus.registered) w)) as [later ->].
    exists later. simpl. by rewrite <- app_assoc.
Qed.

(** C8, as the code has it: when the status recorded for the
    job-submission-id is [submitted] or higher, [submit] with [force] does
    what the attempt does in the unchanged world; that calls [env.submit]
    once when [pretend] is not set, and not at all when it is. *)
Theorem submit_forced env (project : Project StatePoint)
    (state_point : StatePoint) (script : Script) (identifier : string)
    (pretend : bool) (args : Args) w (s : Z) :
  recorded_status (jobsid_of project state_point identifier) w = Some s ->
  JobStatus.value JobStatus.submitted <= s ->
  submit env project state_point script identifier true pretend args w
  = attempt_submission env (jobsid_of project state_point identifier) script
      pretend args w
  /\ env_submit_calls
       (history
          (submit env project state_point script identifier true pretend
             args w).2)
     = env_submit_calls (history w)
       ++ (if pretend then []
           else [EnvSubmit (jobsid_of project state_point identifier) script
                   false args]).
Proof.
  set (jobsid := jobsid_of project state_point identifier).
  intros Hrec _.
  assert (Heq : submit env project state_point script identifier true pretend
                  args w
                = attempt_submission env jobsid script pretend args w).
  { rewrite submit_eq. fold jobsid.
    destruct (status_at_gate_recorded _ _ _ Hrec) as [-> ->].
    by rewrite passes_gate_forced. }
  split; [done|]. rewrite Heq. destruct pretend.
  - rewrite attempt_pretend. simpl. by rewrite env_submit_calls_app.
  - apply attempt_calls.
Qed.

(** C10: when the call reaches the attempt without [pretend] and
    [env.submit] returns a false value, [submit] raises [AssertionError]
    and has recorded [error], as it does when [env.submit] raises that
    exception itself. *)
Theorem submit_refused_is_error env (project : Project StatePoint)
    (state_point : StatePoint) (script : Script) (identifier : string)
    (force : bool) (args : Args) w (st' : EnvState) :
  passes_gate force
    (status_at_gate (jobsid_of project state_point identifier) w) = true ->
  env_submit env (jobsid_of project state_point identifier) script false args
    (env_state w) = (EnvReturns false, st') ->
  exists w',
    submit env project state_point script identifier force false args w
    = (Raises AssertionError, w')
    /\ recorded_status (jobsid_of project state_point identifier) w'
       = Some (JobStatus.value JobStatus.error)
    /\ env_state w' = st'
    /\ forall env2,
         env_submit env2 (jobsid_of project state_point identifier) script
           false args (env_state w) = (EnvRaises AssertionError, st') ->
         submit env2 project state_point script identifier force false args w
         = (Raises AssertionError, w').
Proof.
  set (jobsid := jobsid_of project state_point identifier).
  intros Hgate Hcall. rewrite submit_eq. fold jobsid. rewrite Hgate.
  rewrite <- (env_state_at_gate jobsid w) in Hcall.
  rewrite (attempt_refused _ _ _ _ _ _ Hcall).
  eexists. split; [reflexivity|]. split_and!.
  - apply recorded_after_set_status.
  - reflexivity.
  - intros env2 Hcall2. rewrite submit_eq. fold jobsid. rewrite Hgate.
    rewrite <- (env_state_at_gate jobsid w) in Hcall2.
    by rewrite (attempt_raised _ _ _ _ _ _ _ Hcall2).
Qed.

End SubmitFacts.

(** ** The properties on the samples *)

Example update_status_sample :
  (fun r => (r.1, status_of r.2))
    (update_status (Some Sample.scheduler_jobs) Sample.three)
  = (Returns tt,
     [("p-a-default"%string, 3); ("p-b-default"%string, 2);
      ("p-c-default"%string, 1)]).
Proof. vm_compute. reflexivity. Qed.

Example update_status_sample_local :
  (fun r => (r.1, status_of r.2)) (update_status None Sample.three)
  = (Returns tt,
     [("p-a-default"%string, 1); ("p-b-default"%string, 1);
      ("p-c-default"%string, 1)]).
Proof. vm_compute. reflexivity. Qed.

(** A scheduler job without a status stops the loop at its id: the ids
    before it are updated, the others are not. *)
Example update_status_sample_unreported :
  (fun r => (r.1, status_of r.2))
    (update_status (Some Sample.unreported) Sample.three)
  = (Raises TypeError,
     [("p-a-default"%string, 1); ("p-b-default"%string, 6);
      ("p-c-default"%string, 8)]).
Proof. vm_compute. reflexivity. Qed.

Example update_status_empty_document :
  update_status None ∅ = (Returns tt, {[ "status"%string := [] ]}).
Proof. vm_compute. reflexivity. Qed.

Lemma update_status_with_scheduler_witness :
  exists doc' : document,
    update_status (Some Sample.scheduler_jobs) Sample.three = (Returns tt, doc')
    /\ od_get "p-a-default" (status_of doc') = Some (JobStatus.value JobStatus.inactive)
    /\ od_get "p-b-default" (status_of doc') = Some (JobStatus.value JobStatus.registered)
    /\ od_get "p-c-default" (status_of doc') = Some (JobStatus.value JobStatus.unknown).
Proof.
  assert (Hkeys : od_keys (status_of Sample.three)
                  = ["p-a-default"; "p-b-default"; "p-c-default"]%string)
    by reflexivity.
  destruct (update_status_with_scheduler Sample.scheduler_jobs Sample.three)
    as (doc' & Hrun & Hrec).
  - intros k cjob Hk Hsj. rewrite Hkeys in Hk.
    rewrite !elem_of_cons in Hk.
    destruct Hk as [->|[->|[->|Hk]]]; [| | |inversion Hk];
      vm_compute in Hsj; try discriminate Hsj;
      injection Hsj as <-; eexists; reflexivity.
  - exists doc'. split; [exact Hrun|].
    pose proof (Hrec "p-a-default"%string) as Ha.
    pose proof (Hrec "p-b-default"%string) as Hb.
    pose proof (Hrec "p-c-default"%string) as Hc.
    rewrite Hkeys in Ha, Hb, Hc.
    split_and!.
    + destruct Ha as (r & Hr & _ & _ & Hi); [set_solver|].
      apply Hi. vm_compute in Hr. by injection Hr as <-.
    + destruct Hb as (r & Hr & _ & Hu & _); [set_solver|].
      apply Hu. vm_compute in Hr. by injection Hr as <-.
    + apply Hc. set_solver.
Defined.

(** A scheduler job constructed without a status: [update_status] raises
    [TypeError] at its id, and the id that follows, which the scheduler
    does not know, keeps [error] and is not set to [unknown]. *)
Lemma update_status_unreported_keeps_old :
  "p-c-default"%string ∈ od_keys (status_of Sample.three)
  /\ Sample.unreported !! "p-c-default"%string = None
  /\ exists doc' : document,
       update_status (Some Sample.unreported) Sample.three
       = (Raises TypeError, doc')
       /\ od_get "p-c-default" (status_of doc')
          = Some (JobStatus.value JobStatus.error)
       /\ od_get "p-c-default" (status_of doc')
          <> Some (JobStatus.value JobStatus.unknown).
Proof.
  split_and!.
  - change (od_keys (status_of Sample.three))
      with ["p-a-default"; "p-b-default"; "p-c-default"]%string.
    rewrite !elem_of_cons. auto.
  - vm_compute. reflexivity.
  - eexists. split_and!; [vm_compute; reflexivity..|].
    vm_compute. discriminate.
Qed.

(** Two calls with default arguments on a job that was never submitted. *)
Example submit_twice_sample :
  let first :=
    submit Sample.env_accepting Sample.project tt "run.sh"%string "default"
      false false tt Sample.fresh in
  let second :=
    submit Sample.env_accepting Sample.project tt "run.sh"%string "default"
      false false tt first.2 in
  first.1 = Returns true
  /\ history first.2
     = [Persisted Sample.jobsid 2;
        EnvSubmit Sample.jobsid "run.sh"%string false tt;
        Persisted Sample.jobsid 4]
  /\ second = (Returns false, first.2).
Proof. vm_compute. done. Qed.

Lemma submit_not_forced_is_blocked_witness :
  (exists w',
      submit Sample.env_accepting Sample.project tt "run.sh"%string "default"
        false false tt (Sample.recorded 6)
      = (Returns false, w')
      /\ w' = Sample.recorded 6
      /\ env_submit_calls (history w') = []
      /\ job_document w' = job_document (Sample.recorded 6))
  /\ (submit Sample.env_accepting Sample.project tt "run.sh"%string "default"
        false false tt Sample.fresh).1
     = Returns true
  /\ submit Sample.env_accepting Sample.project tt "run.sh"%string "default"
       false false tt
       (submit Sample.env_accepting Sample.project tt "run.sh"%string "default"
          false false tt Sample.fresh).2
     = (Returns false,
        (submit Sample.env_accepting Sample.project tt "run.sh"%string "default"
           false false tt Sample.fresh).2).
Proof.
  destruct (@submit_not_forced_is_blocked unit string unit nat)
    as [Hblocked Hsecond].
  split_and!.
  - apply (Hblocked Sample.env_accepting Sample.project tt "run.sh"%string
             "default"%string false tt (Sample.recorded 6) 6).
    + vm_compute. reflexivity.
    + vm_compute. discriminate.
  - vm_compute. reflexivity.
  - apply (Hsecond Sample.env_accepting Sample.project tt "run.sh"%string
             "default"%string false false tt Sample.fresh).
    vm_compute. reflexivity.
Defined.

Lemma submit_reraises_witness :
  exists w',
    submit (Sample.env_raising (OtherException "qsub")) Sample.project tt
      "run.sh"%string "default" false false tt Sample.fresh
    = (Raises (OtherException "qsub"), w')
    /\ env_state w' = 1%nat
    /\ recorded_status Sample.jobsid w' = Some (JobStatus.value JobStatus.error).
Proof.
  apply (submit_reraises (Sample.env_raising (OtherException "qsub"))
           Sample.project tt "run.sh"%string "default"%string false tt
           Sample.fresh (OtherException "qsub") 1%nat).
  - vm_compute. reflexivity.
  - vm_compute. reflexivity.
Defined.

(** An exception that is not an instance of [Exception] passes through
    [except Exception]: the status stays [registered]. *)
Lemma submit_KeyboardInterrupt_not_recorded :
  passes_gate false (status_at_gate Sample.jobsid Sample.fresh) = true
  /\ env_submit (Sample.env_raising KeyboardInterrupt) Sample.jobsid
       "run.sh"%string false tt (env_state Sample.fresh)
     = (EnvRaises KeyboardInterrupt, 1%nat)
  /\ exists w',
       submit (Sample.env_raising KeyboardInterrupt) Sample.project tt
         "run.sh"%string "default" false false tt Sample.fresh
       = (Raises KeyboardInterrupt, w')
       /\ recorded_status Sample.jobsid w'
          = Some (JobStatus.value JobStatus.registered)
       /\ recorded_status Sample.jobsid w'
          <> Some (JobStatus.value JobStatus.error).
Proof.
  split_and!; [vm_compute; reflexivity..|].
  eexists. split_and!; [vm_compute; reflexivity..|].
  vm_compute. discriminate.
Qed.

Lemma submit_pretend_witness :
  exists w',
    submit Sample.env_accepting Sample.project tt "run.sh"%string "default"
      false true tt Sample.fresh
    = (Returns true, w')
    /\ recorded_status Sample.jobsid w' = Some (JobStatus.value JobStatus.submitted)
    /\ env_submit_calls (history w') = []
    /\ env_state w' = 0%nat.
Proof.
  apply (submit_pretend Sample.env_accepting Sample.project tt "run.sh"%string
           "default"%string false tt Sample.fresh).
  vm_compute. reflexivity.
Defined.

Lemma submit_registers_first_witness :
  exists w1,
    determine_status Sample.jobsid Sample.fresh
    = (Returns (JobStatus.value JobStatus.registered), w1)
    /\ recorded_status Sample.jobsid w1
       = Some (JobStatus.value JobStatus.registered)
    /\ history w1 = [Persisted Sample.jobsid 2]
    /\ exists later,
         history
           (submit Sample.env_accepting Sample.project tt "run.sh"%string
              "default" false false tt Sample.fresh).2
         = Persisted Sample.jobsid 2 :: later.
Proof.
  destruct (submit_registers_first Sample.env_accepting Sample.project tt
              "run.sh"%string "default"%string false false tt Sample.fresh)
    as (w1 & Hdet & Hrec & _ & Hhist & _ & _ & Hlater).
  - vm_compute. reflexivity.
  - exists w1. split_and!; [exact Hdet | exact Hrec | exact Hhist | exact Hlater].
Defined.

Lemma submit_forced_witness :
  submit Sample.env_accepting Sample.project tt "run.sh"%string "default"
    true false tt (Sample.recorded 4)
  = attempt_submission Sample.env_accepting Sample.jobsid "run.sh"%string
      false tt (Sample.recorded 4)
  /\ env_submit_calls
       (history
          (submit Sample.env_accepting Sample.project tt "run.sh"%string
             "default" true false tt (Sample.recorded 4)).2)
     = [EnvSubmit Sample.jobsid "run.sh"%string false tt].
Proof.
  apply (submit_forced Sample.env_accepting Sample.project tt "run.sh"%string
           "default"%string false tt (Sample.recorded 4) 4).
  - vm_compute. reflexivity.
  - vm_compute. discriminate.
Defined.

(** With [force] and [pretend] both set, a job recorded as [submitted] is
    recorded as [submitted] again and [env.submit] is not called. *)
Lemma submit_forced_pretend_no_call :
  recorded_status Sample.jobsid (Sample.recorded 4)
  = Some (JobStatus.value JobStatus.submitted)
  /\ exists w',
       submit Sample.env_accepting Sample.project tt "run.sh"%string "default"
         true true tt (Sample.recorded 4)
       = (Returns true, w')
       /\ env_submit_calls (history w') = []
       /\ history w' = [Persisted Sample.jobsid 4]
       /\ env_state w' = 0%nat.
Proof.
  split; [vm_compute; reflexivity|].
  eexists. split_and!; vm_compute; reflexivity.
Qed.

Lemma submit_refused_is_error_witness :
  exists w',
    submit Sample.env_refusing Sample.project tt "run.sh"%string "default"
      false false tt Sample.fresh
    = (Raises AssertionError, w')
    /\ recorded_status Sample.jobsid w' = Some (JobStatus.value JobStatus.error)
    /\ env_state w' = 1%nat
    /\ submit (Sample.env_raising AssertionError) Sample.project tt
         "run.sh"%string "default" false false tt Sample.fresh
       = (Raises AssertionError, w').
Proof.
  destruct (submit_refused_is_error Sample.env_refusing Sample.project tt
              "run.sh"%string "default"%string false tt Sample.fresh 1%nat)
    as (w' & Hrun & Hrec & Hst & Hsame).
  - vm_compute. reflexivity.
  - vm_compute. reflexivity.
  - exists w'. split_and!; [exact Hrun | exact Hrec | exact Hst |].
    apply Hsame. vm_compute. reflexivity.
Defined.

(** * Further properties *)

(** ** The status order *)

(** X1: [max] on members is a join: it does not depend on the order of its
    arguments or on how it is nested, and [unknown] is its least member. *)
Theorem max_status_join (a b c : JobStatus.t) :
  max_status a b = max_status b a
  /\ max_status a (max_status b c) = max_status (max_status a b) c
  /\ max_status a a = a
  /\ max_status JobStatus.unknown a = a
  /\ max_status a JobStatus.user = JobStatus.user.
Proof. split_and!; destruct a; try destruct b; try destruct c; reflexivity. Qed.

(** X2: without [force] the gate lets a member through exactly when it is
    [unknown], [registered] or [inactive]. *)
Theorem passes_gate_members (s : JobStatus.t) :
  passes_gate false (JobStatus.value s)
  = bool_decide (s ∈ [JobStatus.unknown; JobStatus.registered; JobStatus.inactive]).
Proof. destruct s; reflexivity. Qed.

(** ** Scheduler jobs *)

(** X3: what [_status_scheduler] returns is never below [unknown]; for a job
    the scheduler knows it is never below [registered] and never below the
    reported status, and it is one of the two. *)
Theorem _status_scheduler_floor (jobsid : string)
    (sj : gmap string ClusterJob) (v : Z) :
  _status_scheduler jobsid sj = Returns v ->
  JobStatus.value JobStatus.unknown <= v
  /\ match sj !! jobsid with
     | None => v = JobStatus.value JobStatus.unknown
     | Some cjob =>
         exists reported,
           status cjob = Some reported
           /\ JobStatus.value JobStatus.registered <= v
           /\ reported <= v
           /\ (v = JobStatus.value JobStatus.registered \/ v = reported)
     end.
Proof.
  unfold _status_scheduler.
  destruct (sj !! jobsid) as [cjob|]; [|intros [= <-]; done].
  destruct (status cjob) as [r|]; [|discriminate].
  rewrite max_int_Zmax. intros [= <-]. simpl. split; [lia|].
  exists r. split_and!; [done|lia..].
Qed.

(** X4: [_status_scheduler] raises exactly for a job the scheduler knows that
    has no status, and then a [TypeError]. *)
Theorem _status_scheduler_raises (jobsid : string)
    (sj : gmap string ClusterJob) (e : exn) :
  _status_scheduler jobsid sj = Raises e
  <-> e = TypeError
      /\ exists cjob, sj !! jobsid = Some cjob /\ status cjob = None.
Proof.
  unfold _status_scheduler. split.
  - destruct (sj !! jobsid) as [cjob|]; [|discriminate].
    destruct (status cjob) as [r|] eqn:Hst; [discriminate|].
    intros [= <-]. eauto.
  - intros [-> (cjob & -> & ->)]. reflexivity.
Qed.

Lemma accessor_run (acc : ClusterJob -> M (list warning) bool) :
  acc ∈ accessors ->
  exists member,
    member ∈ [JobStatus.registered; JobStatus.submitted; JobStatus.active;
              JobStatus.queued; JobStatus.inactive; JobStatus.held]
    /\ forall cjob issued,
         acc cjob issued
         = (Returns (status_eq cjob member),
            issued ++ [DeprecationWarning "Use status() instead."]).
Proof.
  unfold accessors. rewrite !elem_of_cons, elem_of_nil.
  intros [->|[->|[->|[->|[->|[->|[]]]]]]]; eexists;
    (split; [|intros; reflexivity]); set_solver.
Qed.

(** X5: of the deprecated accessors of a scheduler job at most one answers
    [True]: when one does, every other one answers [False] (and issues its
    [DeprecationWarning]). *)
Theorem accessors_exclusive (cjob : ClusterJob) (issued issued' : list warning)
    (i j : nat) (acc1 acc2 : ClusterJob -> M (list warning) bool) :
  accessors !! i = Some acc1 ->
  accessors !! j = Some acc2 ->
  i <> j ->
  (acc1 cjob issued).1 = Returns true ->
  acc2 cjob issued'
  = (Returns false, issued' ++ [DeprecationWarning "Use status() instead."]).
Proof.
  intros Hi Hj Hij Htrue.
  assert (Hs : forall m, status_eq cjob m = true ->
                         status cjob = Some (JobStatus.value m)).
  { intros m. unfold status_eq. destruct (status cjob) as [s|]; [|done].
    intros ->%Z.eqb_eq. done. }
  destruct i as [|[|[|[|[|[|i]]]]]]; simpl in Hi; try discriminate Hi;
    injection Hi as <-;
    (destruct j as [|[|[|[|[|[|j]]]]]]; simpl in Hj; try discriminate Hj;
     injection Hj as <-; try (exfalso; apply Hij; reflexivity));
    injection Htrue as Htrue; apply Hs in Htrue;
    unfold registered, submitted, active, queued, completed, held, bind, warn,
      ret, status_eq;
    rewrite Htrue; reflexivity.
Qed.

(** X6: for a scheduler job without a status, or with one outside the range
    from [registered] to [active], every deprecated accessor answers
    [False]. *)
Theorem accessors_all_false (cjob : ClusterJob) (issued : list warning) :
  (forall s, status cjob = Some s ->
             s < JobStatus.value JobStatus.registered
             \/ JobStatus.value JobStatus.active < s) ->
  Forall (fun acc =>
            acc cjob issued
            = (Returns false,
               issued ++ [DeprecationWarning "Use status() instead."]))
    accessors.
Proof.
  intros Hout. apply Forall_forall. intros acc Hacc.
  destruct (accessor_run acc Hacc) as (m & Hm & ->). do 2 f_equal.
  unfold status_eq. destruct (status cjob) as [s|] eqn:Hst; [|done].
  apply Z.eqb_neq. intros ->. destruct (Hout _ eq_refl) as [H|H];
    rewrite !elem_of_cons, elem_of_nil in Hm;
    destruct Hm as [->|[->|[->|[->|[->|[->|[]]]]]]]; simpl in H; lia.
Qed.

(** ** Status reconciliation, further *)

Lemma od_set_id (k : string) (v : Z) (d : status_doc) :
  od_get k d = Some v -> od_set k v d = d.
Proof.
  induction d as [|[k' v'] d IH]; simpl; [discriminate|].
  destruct (decide (k = k')) as [->|Hne].
  - by intros [= ->].
  - intros Hget. by rewrite IH.
Qed.

Lemma update_status_present (sj : option (gmap string ClusterJob))
    (doc : document) (sd : status_doc) :
  doc !! "status"%string = Some sd ->
  update_status sj doc = update_status_loop sj (od_keys sd) sd doc.
Proof.
  intros Hdoc. unfold update_status, bind, doc_setdefault. by rewrite Hdoc.
Qed.

(** What the loop leaves: the outcome, the status document with the
    visited keys rewritten and the others as they were, and the rest of the
    job document untouched. *)
Lemma update_status_loop_char (sj : option (gmap string ClusterJob))
    (ks : list string) :
  forall (sd : status_doc) (doc : document),
    doc !! "status"%string = Some sd ->
    exists (doc' : document) (sd' : status_doc),
      update_status_loop sj ks sd doc = (loop_outcome sj ks, doc')
      /\ doc' !! "status"%string = Some sd'
      /\ (forall key : string, key ≠ "status"%string -> doc' !! key = doc !! key)
      /\ forall k,
           (k ∈ visited sj ks ->
            exists v, reconciled_status sj k = Returns v /\ od_get k sd' = Some v)
           /\ (k ∉ visited sj ks -> od_get k sd' = od_get k sd).
Proof.
  induction ks as [|k0 ks IH]; intros sd doc Hdoc; simpl.
  - exists doc, sd. split_and!; [done..|].
    intros k. split; [intros H; inversion H | done].
  - unfold bind at 1, lift_result.
    destruct (reconciled_status sj k0) as [v0|e] eqn:Hrec; simpl.
    + unfold bind at 1, doc_setitem.
      destruct (IH (od_set k0 v0 sd) (<["status"%string := od_set k0 v0 sd]> doc))
        as (doc' & sd' & Hrun & Hdoc' & Hframe & Hget);
        [apply lookup_insert_eq|].
      exists doc', sd'. split_and!; [done..| |].
      * intros key Hkey. rewrite Hframe by done. by apply lookup_insert_ne.
      * intros k. destruct (Hget k) as [Hin Hout]. split.
        -- intros Hk.
           destruct (decide (k ∈ visited sj ks)) as [Hv|Hv]; [by apply Hin|].
           apply elem_of_cons in Hk as [->|Hk]; [|done].
           exists v0. split; [done|]. rewrite Hout by done.
           apply od_get_set_eq.
        -- intros Hk. apply not_elem_of_cons in Hk as [Hne Hv].
           rewrite Hout by done. by apply od_get_set_ne.
    + exists doc, sd. split_and!; [done..|].
      intros k. split; [intros H; inversion H | done].
Qed.

(** A status document that already holds the statuses the loop computes is
    left as it is. *)
Lemma update_status_loop_fixed (sj : option (gmap string ClusterJob))
    (ks : list string) (sd : status_doc) (doc : document) :
  doc !! "status"%string = Some sd ->
  (forall k v, k ∈ visited sj ks -> reconciled_status sj k = Returns v ->
               od_get k sd = Some v) ->
  update_status_loop sj ks sd doc = (loop_outcome sj ks, doc).
Proof.
  intros Hdoc. induction ks as [|k0 ks IH]; intros Hheld; simpl; [done|].
  unfold bind at 1, lift_result. simpl in Hheld.
  destruct (reconciled_status sj k0) as [v0|e] eqn:Hrec; simpl; [|done].
  unfold bind at 1, doc_setitem.
  rewrite (od_set_id k0 v0 sd) by (apply Hheld; [left|done]).
  rewrite (insert_id doc _ _ Hdoc).
  apply IH. intros k v Hk. apply Hheld. by right.
Qed.

Lemma loop_outcome_returns (sj : option (gmap string ClusterJob))
    (ks : list string) :
  loop_outcome sj ks = Returns tt
  <-> forall k, k ∈ ks -> exists v, reconciled_status sj k = Returns v.
Proof.
  induction ks as [|k0 ks IH]; simpl.
  - split; [intros _ k H; inversion H | done].
  - destruct (reconciled_status sj k0) as [v0|e] eqn:Hrec.
    + rewrite IH. split.
      * intros H k [->|Hk]%elem_of_cons; eauto.
      * intros H k Hk. apply H. by right.
    + split; [discriminate|]. intros H.
      destruct (H k0) as [v Hv]; [left|]. congruence.
Qed.

Lemma visited_all (sj : option (gmap string ClusterJob)) (ks : list string) :
  loop_outcome sj ks = Returns tt -> visited sj ks = ks.
Proof.
  induction ks as [|k0 ks IH]; simpl; [done|].
  destruct (reconciled_status sj k0); [|discriminate].
  intros H. by rewrite IH.
Qed.

Lemma reconciled_status_returns (sj : gmap string ClusterJob) (k : string) :
  (exists v, reconciled_status (Some sj) k = Returns v)
  <-> forall cjob, sj !! k = Some cjob -> is_Some (status cjob).
Proof.
  unfold reconciled_status, _status_scheduler.
  destruct (sj !! k) as [cjob|].
  - destruct (status cjob) as [r|] eqn:Hst.
    + split; [intros _ cj [= <-]; by rewrite Hst | eauto].
    + split; [intros [v Hv]; discriminate|].
      intros H. destruct (H cjob eq_refl) as [r Hr]. congruence.
  - split; [intros _ cj; discriminate | eauto].
Qed.

Lemma reconciled_status_raises (sj : option (gmap string ClusterJob))
    (k : string) (e : exn) :
  reconciled_status sj k = Raises e -> e = TypeError.
Proof.
  unfold reconciled_status, _status_scheduler.
  destruct sj as [sj|]; [|discriminate].
  destruct (sj !! k) as [cjob|]; [|discriminate].
  destruct (status cjob); [discriminate|]. by intros [= <-].
Qed.

Lemma loop_outcome_raises (sj : option (gmap string ClusterJob))
    (ks : list string) (e : exn) :
  loop_outcome sj ks = Raises e -> e = TypeError.
Proof.
  induction ks as [|k0 ks IH]; simpl; [discriminate|].
  destruct (reconciled_status sj k0) eqn:Hrec; [done|].
  intros [= <-]. by apply reconciled_status_raises in Hrec.
Qed.

(** The outcome of [update_status] is that of its loop on the keys of the
    status document. *)
Lemma update_status_outcome (sj : option (gmap string ClusterJob))
    (doc : document) :
  (update_status sj doc).1 = loop_outcome sj (od_keys (status_of doc)).
Proof.
  destruct (update_status_unfold sj doc) as (doc0 & Hdoc0 & ->).
  destruct (update_status_loop_char sj (od_keys (status_of doc))
              (status_of doc) doc0 Hdoc0) as (doc' & sd' & -> & _).
  reflexivity.
Qed.

(** X7: [update_status] with scheduler jobs returns exactly when every
    scheduler job that the status document names has a status; when it
    does not return it raises [TypeError]. *)
Theorem update_status_returns_iff (sj : gmap string ClusterJob) (doc : document) :
  ((update_status (Some sj) doc).1 = Returns tt
   <-> forall k cjob, k ∈ od_keys (status_of doc) -> sj !! k = Some cjob ->
                      is_Some (status cjob))
  /\ forall e, (update_status (Some sj) doc).1 = Raises e -> e = TypeError.
Proof.
  rewrite update_status_outcome. split.
  - rewrite loop_outcome_returns. split.
    + intros H k cjob Hk. by apply reconciled_status_returns, H.
    + intros H k Hk. apply reconciled_status_returns. intros cjob. by apply H.
  - apply loop_outcome_raises.
Qed.

(** X8: running [update_status] a second time changes nothing: same outcome,
    same job document. *)
Theorem update_status_idempotent (sj : option (gmap string ClusterJob))
    (doc : document) :
  update_status sj (update_status sj doc).2 = update_status sj doc.
Proof.
  destruct (update_status_unfold sj doc) as (doc0 & Hdoc0 & Hunf).
  destruct (update_status_loop_char sj (od_keys (status_of doc))
              (status_of doc) doc0 Hdoc0)
    as (doc' & sd' & Hrun & Hdoc' & _ & Hget).
  destruct (update_status_loop_keys sj (od_keys (status_of doc))
              (status_of doc) doc0) as (sd'' & Hsd'' & Hkeys);
    [by apply Forall_forall|done|].
  rewrite Hrun in Hsd''. simpl in Hsd''. rewrite Hdoc' in Hsd''.
  injection Hsd'' as <-.
  rewrite Hunf, Hrun. simpl.
  rewrite (update_status_present sj doc' sd' Hdoc'), Hkeys.
  apply update_status_loop_fixed; [done|].
  intros k v Hk Hv. destruct (Hget k) as [Hin _].
  destruct (Hin Hk) as (v' & Hv' & Hgot). congruence.
Qed.

(** X9: [update_status] assigns to ["status"] only: every other entry of the
    job document is as it was. *)
Theorem update_status_frame (sj : option (gmap string ClusterJob))
    (doc : document) (key : string) :
  key ≠ "status"%string ->
  (update_status sj doc).2 !! key = doc !! key.
Proof.
  intros Hkey.
  unfold update_status, bind, doc_setdefault.
  destruct (doc !! "status"%string) as [sd|] eqn:Hdoc.
  - destruct (update_status_loop_char sj (od_keys sd) sd doc Hdoc)
      as (doc' & sd' & -> & _ & Hframe & _). by apply Hframe.
  - simpl. by apply lookup_insert_ne.
Qed.

(** X10: on a job document without a ["status"] entry [update_status] returns
    and leaves an empty status document behind. *)
Theorem update_status_creates_entry (sj : option (gmap string ClusterJob))
    (doc : document) :
  doc !! "status"%string = None ->
  update_status sj doc = (Returns tt, <["status"%string := []]> doc).
Proof.
  intros Hdoc. unfold update_status, bind, doc_setdefault. by rewrite Hdoc.
Qed.

Lemma visited_stops (sj : gmap string ClusterJob) (pre post : list string)
    (k : string) (cjob : ClusterJob) :
  (forall k' cj, k' ∈ pre -> sj !! k' = Some cj -> is_Some (status cj)) ->
  sj !! k = Some cjob ->
  status cjob = None ->
  visited (Some sj) (pre ++ k :: post) = pre
  /\ loop_outcome (Some sj) (pre ++ k :: post) = Raises TypeError.
Proof.
  intros Hpre Hk Hst.
  induction pre as [|k0 pre IH]; cbn [app visited loop_outcome].
  - by rewrite (reconciled_status_no_report sj k cjob Hk Hst).
  - destruct (proj2 (reconciled_status_returns sj k0)) as [v ->].
    { intros cj. apply Hpre. left. }
    destruct IH as [-> ->]; [|done].
    intros k' cj Hin. apply Hpre. by right.
Qed.

(** X11: a scheduler job without a status stops [update_status] with a
    [TypeError] at its id: the ids that come before it in the status
    document have their new status, every other id keeps its old one. *)
Theorem update_status_stops (sj : gmap string ClusterJob) (doc : document)
    (pre post : list string) (k : string) (cjob : ClusterJob) :
  od_keys (status_of doc) = pre ++ k :: post ->
  (forall k' cj, k' ∈ pre -> sj !! k' = Some cj -> is_Some (status cj)) ->
  sj !! k = Some cjob ->
  status cjob = None ->
  exists doc' : document,
    update_status (Some sj) doc = (Raises TypeError, doc')
    /\ (forall k', k' ∈ pre ->
          exists v, reconciled_status (Some sj) k' = Returns v
                    /\ od_get k' (status_of doc') = Some v)
    /\ (forall k', k' ∉ pre ->
          od_get k' (status_of doc') = od_get k' (status_of doc)).
Proof.
  intros Hkeys Hpre Hk Hst.
  destruct (update_status_unfold (Some sj) doc) as (doc0 & Hdoc0 & ->).
  destruct (update_status_loop_char (Some sj) (od_keys (status_of doc))
              (status_of doc) doc0 Hdoc0)
    as (doc' & sd' & -> & Hdoc' & _ & Hget).
  rewrite Hkeys in Hget |- *.
  destruct (visited_stops sj pre post k cjob Hpre Hk Hst) as [Hv ->].
  rewrite Hv in Hget.
  assert (Hsd : status_of doc' = sd') by (unfold status_of; by rewrite Hdoc').
  exists doc'. rewrite Hsd. split_and!; [done| |]; intros k'; apply Hget.
Qed.

(** X12: [update_status] does not look at the statuses recorded before: two job
    documents whose status documents have the same keys get the same
    outcome and, when it returns, the same statuses. *)
Theorem update_status_forgets (sj : option (gmap string ClusterJob))
    (doc1 doc2 : document) :
  od_keys (status_of doc1) = od_keys (status_of doc2) ->
  (update_status sj doc1).1 = (update_status sj doc2).1
  /\ ((update_status sj doc1).1 = Returns tt ->
      forall k, od_get k (status_of (update_status sj doc1).2)
                = od_get k (status_of (update_status sj doc2).2)).
Proof.
  intros Hkeys. rewrite !update_status_outcome, Hkeys. split; [done|].
  intros Hret k.
  destruct (update_status_unfold sj doc1) as (d1 & Hd1 & ->).
  destruct (update_status_unfold sj doc2) as (d2 & Hd2 & ->).
  destruct (update_status_loop_char sj (od_keys (status_of doc1))
              (status_of doc1) d1 Hd1) as (d1' & sd1' & -> & Hd1' & _ & Hg1).
  destruct (update_status_loop_char sj (od_keys (status_of doc2))
              (status_of doc2) d2 Hd2) as (d2' & sd2' & -> & Hd2' & _ & Hg2).
  simpl.
  assert (Hs1 : status_of d1' = sd1') by (unfold status_of; by rewrite Hd1').
  assert (Hs2 : status_of d2' = sd2') by (unfold status_of; by rewrite Hd2').
  rewrite Hs1, Hs2.
  rewrite Hkeys in Hg1. rewrite (visited_all _ _ Hret) in Hg1, Hg2.
  destruct (decide (k ∈ od_keys (status_of doc2))) as [Hk|Hk].
  - destruct (proj1 (Hg1 k) Hk) as (v1 & Hv1 & ->).
    destruct (proj1 (Hg2 k) Hk) as (v2 & Hv2 & ->). congruence.
  - rewrite (proj2 (Hg1 k) Hk), (proj2 (Hg2 k) Hk).
    pose proof Hk as Hk'. rewrite <- Hkeys in Hk'.
    apply od_get_None in Hk, Hk'. by rewrite Hk, Hk'.
Qed.

(** ** The submission gate, further *)

Lemma format_jobsid_identifier (project job identifier1 identifier2 : string) :
  format_jobsid project job identifier1 = format_jobsid project job identifier2 ->
  identifier1 = identifier2.
Proof.
  unfold format_jobsid. intros H.
  by repeat apply String.app_inj in H.
Qed.

Lemma string_app_assoc (a b c : string) : (a +:+ b) +:+ c = a +:+ b +:+ c.
Proof.
  induction a as [|x a IH]; [reflexivity|].
  change (String x ((a +:+ b) +:+ c) = String x (a +:+ b +:+ c)).
  by rewrite IH.
Qed.

(** X13: the hyphen is no separator: a project [p-q] with job [j] and a
    project [p] with job [q-j] are given the same job-submission-id. *)
Theorem format_jobsid_collides (p q j identifier : string) :
  format_jobsid (p +:+ "-" +:+ q) j identifier
  = format_jobsid p (q +:+ "-" +:+ j) identifier.
Proof.
  unfold format_jobsid. by rewrite !string_app_assoc.
Qed.

Section SubmitFurther.

Context {StatePoint Script Args EnvState : Type}.

Implicit Types (w : world Script Args EnvState) (jobsid : string).
Implicit Types (env : Environment Script Args EnvState).

(** The ways the attempt can go, with the world each leaves. *)
Lemma attempt_cases env jobsid (script : Script) (pretend : bool)
    (args : Args) w :
  (pretend = true
   /\ attempt_submission env jobsid script pretend args w
      = (Returns true,
         after_set_status jobsid (JobStatus.value JobStatus.submitted) w))
  \/ (pretend = false
      /\ exists st',
           env_submit env jobsid script false args (env_state w)
           = (EnvReturns true, st')
           /\ attempt_submission env jobsid script pretend args w
              = (Returns true,
                 after_set_status jobsid (JobStatus.value JobStatus.submitted)
                   (after_env_submit jobsid script false args st' w)))
  \/ (pretend = false
      /\ exists st',
           env_submit env jobsid script false args (env_state w)
           = (EnvReturns false, st')
           /\ attempt_submission env jobsid script pretend args w
              = (Raises AssertionError,
                 after_set_status jobsid (JobStatus.value JobStatus.error)
                   (after_env_submit jobsid script false args st' w)))
  \/ (pretend = false
      /\ exists e st',
           env_submit env jobsid script false args (env_state w)
           = (EnvRaises e, st')
           /\ attempt_submission env jobsid script pretend args w
              = (Raises e,
                 if isinstance_Exception e
                 then after_set_status jobsid (JobStatus.value JobStatus.error)
                        (after_env_submit jobsid script false args st' w)
                 else after_env_submit jobsid script false args st' w)).
Proof.
  destruct pretend; [left; by rewrite attempt_pretend|right].
  destruct (env_submit env jobsid script false args (env_state w))
    as [[[|]|e] st'] eqn:Hcall.
  - left. split; [done|]. exists st'. split; [done|]. by apply attempt_accepted.
  - right; left. split; [done|]. exists st'. split; [done|].
    by apply attempt_refused.
  - right; right. split; [done|]. exists e, st'. split; [done|].
    by apply attempt_raised.
Qed.

Lemma recorded_at_gate_ne jobsid (k : string) w :
  jobsid ≠ k -> recorded_status k (at_gate jobsid w) = recorded_status k w.
Proof.
  intros Hne. unfold at_gate. destruct (recorded_status jobsid w); [done|].
  by apply recorded_after_set_status_ne.
Qed.

Lemma document_after_set_status jobsid (value : Z) w (key : string) :
  key ≠ "status"%string ->
  job_document (after_set_status jobsid value w) !! key = job_document w !! key.
Proof. intros Hkey. simpl. by apply lookup_insert_ne. Qed.

Lemma document_at_gate jobsid w (key : string) :
  key ≠ "status"%string ->
  job_document (at_gate jobsid w) !! key = job_document w !! key.
Proof.
  intros Hkey. unfold at_gate. destruct (recorded_status jobsid w); [done|].
  by apply document_after_set_status.
Qed.

(** The attempt writes the entry of its job-submission-id only. *)
Lemma attempt_frame env jobsid (script : Script) (pretend : bool)
    (args : Args) w :
  (forall k, jobsid ≠ k ->
     recorded_status k (attempt_submission env jobsid script pretend args w).2
     = recorded_status k w)
  /\ (forall key : string, key ≠ "status"%string ->
        job_document (attempt_submission env jobsid script pretend args w).2 !! key
        = job_document w !! key).
Proof.
  destruct (attempt_cases env jobsid script pretend args w)
    as [[_ ->]|[(_ & st' & _ & ->)|[(_ & st' & _ & ->)|(_ & e & st' & _ & ->)]]];
    try destruct (isinstance_Exception e); simpl; split;
    intros k Hk;
    rewrite ?recorded_after_set_status_ne, ?document_after_set_status by done;
    try done.
  all: by apply lookup_insert_ne.
Qed.

(** The status recorded for another id is as it was. *)
Lemma submit_other_recorded env (project : Project StatePoint)
    (state_point : StatePoint) (script : Script) (identifier : string)
    (force pretend : bool) (args : Args) w (k : string) :
  k ≠ jobsid_of project state_point identifier ->
  recorded_status k
    (submit env project state_point script identifier force pretend args w).2
  = recorded_status k w.
Proof.
  set (jobsid := jobsid_of project state_point identifier).
  intros Hk. rewrite submit_eq. fold jobsid.
  destruct (passes_gate _ _); [|by apply recorded_at_gate_ne].
  destruct (attempt_frame env jobsid script pretend args (at_gate jobsid w))
    as [Hrec _].
  rewrite Hrec by done. by apply recorded_at_gate_ne.
Qed.

(** X14: [submit] writes the entry of its job-submission-id only: the status
    recorded for any other id, and every entry of the job document other
    than ["status"], are as they were, whatever the outcome. *)
Theorem submit_frame env (project : Project StatePoint)
    (state_point : StatePoint) (script : Script) (identifier : string)
    (force pretend : bool) (args : Args) w (k : string) :
  k ≠ jobsid_of project state_point identifier ->
  recorded_status k
    (submit env project state_point script identifier force pretend args w).2
  = recorded_status k w
  /\ forall key : string, key ≠ "status"%string ->
       job_document
         (submit env project state_point script identifier force pretend
            args w).2 !! key
       = job_document w !! key.
Proof.
  set (jobsid := jobsid_of project state_point identifier).
  intros Hk. split; [by apply submit_other_recorded|].
  intros key Hkey. rewrite submit_eq. fold jobsid.
  destruct (passes_gate _ _); [|by apply document_at_gate].
  destruct (attempt_frame env jobsid script pretend args (at_gate jobsid w))
    as [_ Hdoc].
  rewrite Hdoc by done. by apply document_at_gate.
Qed.

(** X15: submitting a job under one identifier leaves what is recorded for the
    same job under another identifier alone, and so does not change
    whether that one passes the gate. *)
Theorem submit_identifiers_independent env (project : Project StatePoint)
    (state_point : StatePoint) (script : Script)
    (identifier1 identifier2 : string) (force pretend : bool) (args : Args) w :
  identifier1 ≠ identifier2 ->
  recorded_status (jobsid_of project state_point identifier2)
    (submit env project state_point script identifier1 force pretend args w).2
  = recorded_status (jobsid_of project state_point identifier2) w
  /\ status_at_gate (jobsid_of project state_point identifier2)
       (submit env project state_point script identifier1 force pretend
          args w).2
     = status_at_gate (jobsid_of project state_point identifier2) w.
Proof.
  intros Hne.
  assert (Hrec : recorded_status (jobsid_of project state_point identifier2)
                   (submit env project state_point script identifier1 force
                      pretend args w).2
                 = recorded_status (jobsid_of project state_point identifier2) w).
  { apply submit_other_recorded. unfold jobsid_of. intros Heq.
    by apply format_jobsid_identifier in Heq. }
  split; [done|]. unfold status_at_gate. by rewrite Hrec.
Qed.

(** X16: [submit] calls [env.submit] when the gate is passed and [pretend] is not
    set, once, with the job-submission-id, the script and the arguments it
    was given; otherwise it does not call it. *)
Theorem submit_env_calls env (project : Project StatePoint)
    (state_point : StatePoint) (script : Script) (identifier : string)
    (force pretend : bool) (args : Args) w :
  env_submit_calls
    (history
       (submit env project state_point script identifier force pretend args w).2)
  = env_submit_calls (history w)
    ++ (if passes_gate force
             (status_at_gate (jobsid_of project state_point identifier) w)
           && negb pretend
        then [EnvSubmit (jobsid_of project state_point identifier) script false
                args]
        else []).
Proof.
  set (jobsid := jobsid_of project state_point identifier).
  rewrite submit_eq. fold jobsid. destruct (passes_gate _ _); simpl.
  - destruct pretend; simpl.
    + rewrite env_submit_calls_app, calls_at_gate. simpl. by rewrite !app_nil_r.
    + by rewrite attempt_calls, calls_at_gate.
  - by rewrite calls_at_gate, app_nil_r.
Qed.

(** X17: [submit] returns [False] exactly when it is not forced and the recorded
    status is [submitted] or higher. *)
Theorem submit_returns_false_iff env (project : Project StatePoint)
    (state_point : StatePoint) (script : Script) (identifier : string)
    (force pretend : bool) (args : Args) w :
  (submit env project state_point script identifier force pretend args w).1
  = Returns false
  <-> force = false
      /\ exists s,
           recorded_status (jobsid_of project state_point identifier) w = Some s
           /\ JobStatus.value JobStatus.submitted <= s.
Proof.
  set (jobsid := jobsid_of project state_point identifier).
  split.
  - rewrite submit_eq. fold jobsid.
    destruct (passes_gate force (status_at_gate jobsid w)) eqn:Hgate.
    + destruct (attempt_cases env jobsid script pretend args (at_gate jobsid w))
        as [[_ ->]|[(_ & st' & _ & ->)|[(_ & st' & _ & ->)|(_ & e & st' & _ & ->)]]];
        discriminate.
    + intros _. unfold passes_gate, status_at_gate in Hgate.
      destruct force; [discriminate|]. split; [done|]. simpl in Hgate.
      destruct (recorded_status jobsid w) as [s|]; [|discriminate].
      exists s. split; [done|]. simpl in Hgate.
      destruct (Z.geb_spec s 4); [done|discriminate].
  - intros [-> (s & Hrec & Hs)].
    by rewrite (submit_blocked _ _ _ _ _ _ _ _ s Hrec Hs).
Qed.

(** X18: an exception that leaves [submit] comes from the attempt: [pretend] was
    not set, the gate was passed, and either [env.submit] raised that very
    exception or it returned a false value and the exception is
    [AssertionError].  In particular [submit] raises no [KeyError]. *)
Theorem submit_raises_only env (project : Project StatePoint)
    (state_point : StatePoint) (script : Script) (identifier : string)
    (force pretend : bool) (args : Args) w (e : exn) :
  (submit env project state_point script identifier force pretend args w).1
  = Raises e ->
  pretend = false
  /\ passes_gate force
       (status_at_gate (jobsid_of project state_point identifier) w) = true
  /\ exists st',
       env_submit env (jobsid_of project state_point identifier) script false
         args (env_state w) = (EnvRaises e, st')
       \/ (env_submit env (jobsid_of project state_point identifier) script
             false args (env_state w) = (EnvReturns false, st')
           /\ e = AssertionError).
Proof.
  set (jobsid := jobsid_of project state_point identifier).
  rewrite submit_eq. fold jobsid.
  destruct (passes_gate force (status_at_gate jobsid w)); [|discriminate].
  rewrite <- (env_state_at_gate jobsid w).
  destruct (attempt_cases env jobsid script pretend args (at_gate jobsid w))
    as [[_ ->]|[(_ & st' & _ & ->)|[(-> & st' & Hc & ->)|(-> & e' & st' & Hc & ->)]]];
    try discriminate; intros [= <-]; split_and!; try done; exists st'; eauto.
Qed.

(** X19: when the gate is passed, [pretend] is not set and [env.submit] returns
    a true value, [submit] returns [True], has recorded [submitted], and has
    called [env.submit] once. *)
Theorem submit_accepted env (project : Project StatePoint)
    (state_point : StatePoint) (script : Script) (identifier : string)
    (force : bool) (args : Args) w (st' : EnvState) :
  passes_gate force
    (status_at_gate (jobsid_of project state_point identifier) w) = true ->
  env_submit env (jobsid_of project state_point identifier) script false args
    (env_state w) = (EnvReturns true, st') ->
  exists w',
    submit env project state_point script identifier force false args w
    = (Returns true, w')
    /\ recorded_status (jobsid_of project state_point identifier) w'
       = Some (JobStatus.value JobStatus.submitted)
    /\ env_state w' = st'
    /\ exists before,
         history w'
         = before
           ++ [EnvSubmit (jobsid_of project state_point identifier) script
                 false args;
               Persisted (jobsid_of project state_point identifier)
                 (JobStatus.value JobStatus.submitted)]
         /\ env_submit_calls before = env_submit_calls (history w).
Proof.
  set (jobsid := jobsid_of project state_point identifier).
  intros Hgate Hcall. rewrite submit_eq. fold jobsid. rewrite Hgate.
  rewrite <- (env_state_at_gate jobsid w) in Hcall.
  rewrite (attempt_accepted _ _ _ _ _ _ Hcall).
  eexists. split; [reflexivity|]. split_and!.
  - apply recorded_after_set_status.
  - reflexivity.
  - exists (history (at_gate jobsid w)). simpl.
    split; [by rewrite <- app_assoc | apply calls_at_gate].
Qed.

(** X20: after [submit] the job-submission-id always has an entry, and it tells
    how the call went: [submitted] after [True]; [error] after an exception
    that is an instance of [Exception]; otherwise the status the gate
    compared. *)
Theorem submit_records_outcome env (project : Project StatePoint)
    (state_point : StatePoint) (script : Script) (identifier : string)
    (force pretend : bool) (args : Args) w :
  recorded_status (jobsid_of project state_point identifier)
    (submit env project state_point script identifier force pretend args w).2
  = Some
      match
        (submit env project state_point script identifier force pretend args w).1
      with
      | Returns true => JobStatus.value JobStatus.submitted
      | Returns false =>
          status_at_gate (jobsid_of project state_point identifier) w
      | Raises e =>
          if isinstance_Exception e then JobStatus.value JobStatus.error
          else status_at_gate (jobsid_of project state_point identifier) w
      end.
Proof.
  set (jobsid := jobsid_of project state_point identifier).
  rewrite submit_eq. fold jobsid.
  destruct (passes_gate _ _); [|apply recorded_at_gate].
  destruct (attempt_cases env jobsid script pretend args (at_gate jobsid w))
    as [[_ ->]|[(_ & st' & _ & ->)|[(_ & st' & _ & ->)|(_ & e & st' & _ & ->)]]];
    simpl; try apply recorded_after_set_status.
  destruct (isinstance_Exception e);
    [apply recorded_after_set_status | apply recorded_at_gate].
Qed.

(** An instance of [Exception] that leaves [submit] has been recorded. *)
Lemma submit_raised_recorded env (project : Project StatePoint)
    (state_point : StatePoint) (script : Script) (identifier : string)
    (force pretend : bool) (args : Args) w w' (e : exn) :
  submit env project state_point script identifier force pretend args w
  = (Raises e, w') ->
  isinstance_Exception e = true ->
  recorded_status (jobsid_of project state_point identifier) w'
  = Some (JobStatus.value JobStatus.error).
Proof.
  set (jobsid := jobsid_of project state_point identifier).
  rewrite submit_eq. fold jobsid.
  destruct (passes_gate _ _); [|discriminate].
  destruct (attempt_cases env jobsid script pretend args (at_gate jobsid w))
    as [[_ ->]|[(_ & st' & _ & ->)|[(_ & st' & _ & ->)|(_ & e' & st' & _ & ->)]]];
    try discriminate.
  - intros [= <- <-] _. apply recorded_after_set_status.
  - intros [= <- <-] He. rewrite He. apply recorded_after_set_status.
Qed.

(** X21: a job whose submission failed with an instance of [Exception] is in the
    [error] state, and an unforced [submit] does not try again: it returns
    [False] and changes nothing. *)
Theorem submit_error_blocks_retry env (project : Project StatePoint)
    (state_point : StatePoint) (script : Script) (identifier : string)
    (force pretend : bool) (args : Args) w w' (e : exn) :
  submit env project state_point script identifier force pretend args w
  = (Raises e, w') ->
  isinstance_Exception e = true ->
  forall env2 (script2 : Script) (pretend2 : bool) (args2 : Args),
    submit env2 project state_point script2 identifier false pretend2 args2 w'
    = (Returns false, w').
Proof.
  intros Hrun He env2 script2 pretend2 args2.
  pose proof (submit_raised_recorded _ _ _ _ _ _ _ _ _ _ _ Hrun He) as Hrec.
  by apply submit_blocked with (JobStatus.value JobStatus.error).
Qed.

(** What [update_status] leaves when it returns. *)
Lemma update_status_values (sj : option (gmap string ClusterJob))
    (doc doc' : document) :
  update_status sj doc = (Returns tt, doc') ->
  forall k,
    (k ∈ od_keys (status_of doc) ->
     exists v, reconciled_status sj k = Returns v
               /\ od_get k (status_of doc') = Some v)
    /\ (k ∉ od_keys (status_of doc) -> od_get k (status_of doc') = None).
Proof.
  intros Hrun k.
  pose proof (update_status_outcome sj doc) as Hout.
  rewrite Hrun in Hout. simpl in Hout. symmetry in Hout.
  destruct (update_status_unfold sj doc) as (doc0 & Hdoc0 & Hunf).
  destruct (update_status_loop_char sj (od_keys (status_of doc))
              (status_of doc) doc0 Hdoc0)
    as (doc1 & sd' & Hloop & Hdoc1 & _ & Hget).
  rewrite Hunf, Hloop in Hrun. injection Hrun as _ <-.
  assert (Hsd : status_of doc1 = sd') by (unfold status_of; by rewrite Hdoc1).
  rewrite Hsd. rewrite (visited_all _ _ Hout) in Hget.
  destruct (Hget k) as [Hin Hnot]. split; [done|].
  intros Hk. rewrite Hnot by done. by apply od_get_None.
Qed.

(** X22: after [update_status] without scheduler jobs every job-submission-id
    passes the gate, whatever was recorded for it before. *)
Theorem update_unblocks (jobsid : string) w :
  exists w2,
    update_job_status None w = (Returns tt, w2)
    /\ env_state w2 = env_state w
    /\ history w2 = history w
    /\ passes_gate false (status_at_gate jobsid w2) = true.
Proof.
  unfold update_job_status, on_document.
  destruct (update_status None (job_document w)) as [r doc'] eqn:Hrun.
  pose proof (update_status_outcome None (job_document w)) as Hout.
  rewrite Hrun in Hout. simpl in Hout.
  assert (Hr : loop_outcome None (od_keys (status_of (job_document w)))
               = Returns tt).
  { apply loop_outcome_returns. intros k _. by eexists. }
  rewrite Hr in Hout. subst r. eexists. split_and!; [reflexivity..|].
  unfold status_at_gate, recorded_status. simpl.
  destruct (update_status_values None _ _ Hrun jobsid) as [Hin Hnot].
  destruct (decide (jobsid ∈ od_keys (status_of (job_document w)))) as [Hk|Hk].
  - destruct (Hin Hk) as (v & [= <-] & ->). reflexivity.
  - by rewrite (Hnot Hk).
Qed.

(** X23: after [update_status] with scheduler jobs has returned, an unforced
    [submit] is blocked exactly for the ids of the status document that the
    scheduler reports as [submitted] or higher. *)
Theorem update_then_gate (sj : gmap string ClusterJob) (jobsid : string) w w2 :
  update_job_status (Some sj) w = (Returns tt, w2) ->
  passes_gate false (status_at_gate jobsid w2) = false
  <-> jobsid ∈ od_keys (status_of (job_document w))
      /\ exists cjob reported,
           sj !! jobsid = Some cjob
           /\ status cjob = Some reported
           /\ JobStatus.value JobStatus.submitted <= reported.
Proof.
  unfold update_job_status, on_document.
  destruct (update_status (Some sj) (job_document w)) as [r doc'] eqn:Hrun.
  intros [= -> <-].
  unfold status_at_gate, recorded_status. simpl.
  destruct (update_status_values (Some sj) _ _ Hrun jobsid) as [Hin Hnot].
  destruct (decide (jobsid ∈ od_keys (status_of (job_document w)))) as [Hk|Hk].
  - destruct (Hin Hk) as (v & Hv & ->). simpl.
    unfold reconciled_status, _status_scheduler in Hv.
    destruct (sj !! jobsid) as [cjob|].
    + destruct (status cjob) as [reported|] eqn:Hst; [|discriminate].
      rewrite !max_int_Zmax in Hv. injection Hv as <-.
      unfold passes_gate, _status_local. simpl negb. cbv iota. simpl.
      destruct (Z.geb_spec (Z.max (Z.max 2 reported) 1) 4) as [Hge|Hlt].
      * split; [intros _|done]. split; [done|].
        exists cjob, reported. split_and!; [done..|lia].
      * split; [done|]. intros (_ & cj & r & [= <-] & Hst' & Hr).
        rewrite Hst in Hst'. injection Hst' as <-. lia.
    + injection Hv as <-. split; [done|].
      intros (_ & cj & r & Hcj & _). discriminate.
  - rewrite (Hnot Hk). simpl. split; [done|]. by intros [? _].
Qed.

End SubmitFurther.

(** ** The further properties on the samples *)

Lemma _status_scheduler_floor_witness :
  _status_scheduler "p-b-default" Sample.scheduler_jobs = Returns 2
  /\ JobStatus.value JobStatus.unknown <= 2.
Proof.
  assert (H : _status_scheduler "p-b-default" Sample.scheduler_jobs = Returns 2)
    by (vm_compute; reflexivity).
  split; [exact H|].
  exact (proj1 (_status_scheduler_floor "p-b-default" Sample.scheduler_jobs 2 H)).
Defined.

Lemma accessors_exclusive_witness :
  (queued Sample.cjob_queued []).1 = Returns true
  /\ registered Sample.cjob_queued []
     = (Returns false, [DeprecationWarning "Use status() instead."]).
Proof.
  split; [reflexivity|].
  apply (accessors_exclusive Sample.cjob_queued [] [] 3 0 queued registered);
    [reflexivity | reflexivity | discriminate | reflexivity].
Defined.

Lemma accessors_all_false_witness :
  Forall (fun acc =>
            acc Sample.cjob_blank []
            = (Returns false, [] ++ [DeprecationWarning "Use status() instead."]))
    accessors.
Proof.
  apply (accessors_all_false Sample.cjob_blank []).
  intros s H. discriminate H.
Defined.

Lemma update_status_frame_witness :
  (update_status None (<["note"%string := [("seen"%string, 0)]]> Sample.three)).2
    !! "note"%string
  = (<["note"%string := [("seen"%string, 0)]]> Sample.three) !! "note"%string.
Proof.
  apply (update_status_frame None
           (<["note"%string := [("seen"%string, 0)]]> Sample.three) "note").
  discriminate.
Defined.

Lemma update_status_creates_entry_witness :
  update_status (Some Sample.scheduler_jobs) ∅
  = (Returns tt, <["status"%string := []]> ∅).
Proof.
  apply (update_status_creates_entry (Some Sample.scheduler_jobs) ∅).
  reflexivity.
Defined.

Lemma update_status_stops_witness :
  exists doc' : document,
    update_status (Some Sample.unreported) Sample.three = (Raises TypeError, doc')
    /\ od_get "p-b-default" (status_of doc') = Some 6
    /\ od_get "p-c-default" (status_of doc') = Some 8.
Proof.
  destruct (update_status_stops Sample.unreported Sample.three
              ["p-a-default"%string] ["p-c-default"%string]
              "p-b-default" Sample.cjob_blank)
    as (doc' & Hrun & _ & Hrest).
  - reflexivity.
  - intros k' cj Hk' Hcj. apply list_elem_of_singleton in Hk' as ->.
    vm_compute in Hcj. discriminate Hcj.
  - vm_compute. reflexivity.
  - reflexivity.
  - exists doc'. split; [exact Hrun|].
    split; (rewrite Hrest; [reflexivity|]);
      intros H; apply list_elem_of_singleton in H; discriminate H.
Defined.

Lemma update_status_forgets_witness :
  (update_status None Sample.three).1
  = (update_status None
       {[ "status"%string := [("p-a-default"%string, 1);
                              ("p-b-default"%string, 1);
                              ("p-c-default"%string, 1)] ]}).1.
Proof.
  apply (update_status_forgets None Sample.three
           {[ "status"%string := [("p-a-default"%string, 1);
                                  ("p-b-default"%string, 1);
                                  ("p-c-default"%string, 1)] ]}).
  reflexivity.
Defined.

Lemma submit_frame_witness :
  recorded_status "proj-0a1b-nightly"
    (submit Sample.env_accepting Sample.project tt "run.sh"%string "default"
       false false tt (Sample.nightly 6)).2
  = recorded_status "proj-0a1b-nightly" (Sample.nightly 6).
Proof.
  apply (submit_frame Sample.env_accepting Sample.project tt "run.sh"%string
           "default"%string false false tt (Sample.nightly 6)
           "proj-0a1b-nightly"%string).
  vm_compute. discriminate.
Defined.

Lemma submit_identifiers_independent_witness :
  recorded_status (jobsid_of Sample.project tt "nightly")
    (submit Sample.env_accepting Sample.project tt "run.sh"%string "default"
       false false tt Sample.fresh).2
  = recorded_status (jobsid_of Sample.project tt "nightly") Sample.fresh.
Proof.
  apply (submit_identifiers_independent Sample.env_accepting Sample.project tt
           "run.sh"%string "default"%string "nightly"%string false false tt
           Sample.fresh).
  discriminate.
Defined.

Lemma submit_raises_only_witness :
  (submit Sample.env_refusing Sample.project tt "run.sh"%string "default"
     false false tt Sample.fresh).1
  = Raises AssertionError
  /\ exists st',
       env_submit Sample.env_refusing (jobsid_of Sample.project tt "default")
         "run.sh"%string false tt (env_state Sample.fresh)
       = (EnvRaises AssertionError, st')
       \/ (env_submit Sample.env_refusing (jobsid_of Sample.project tt "default")
             "run.sh"%string false tt (env_state Sample.fresh)
           = (EnvReturns false, st')
           /\ AssertionError = AssertionError).
Proof.
  assert (H : (submit Sample.env_refusing Sample.project tt "run.sh"%string
                 "default" false false tt Sample.fresh).1
              = Raises AssertionError) by (vm_compute; reflexivity).
  split; [exact H|].
  exact (proj2 (proj2 (submit_raises_only Sample.env_refusing Sample.project tt
                         "run.sh"%string "default"%string false false tt
                         Sample.fresh AssertionError H))).
Defined.

Lemma submit_accepted_witness :
  exists w',
    submit Sample.env_accepting Sample.project tt "run.sh"%string "default"
      false false tt Sample.fresh
    = (Returns true, w')
    /\ recorded_status Sample.jobsid w' = Some (JobStatus.value JobStatus.submitted)
    /\ env_state w' = 1%nat.
Proof.
  destruct (submit_accepted Sample.env_accepting Sample.project tt
              "run.sh"%string "default"%string false tt Sample.fresh 1%nat)
    as (w' & Hrun & Hrec & Hst & _).
  - vm_compute. reflexivity.
  - vm_compute. reflexivity.
  - exists w'. split_and!; [exact Hrun | exact Hrec | exact Hst].
Defined.

Lemma submit_error_blocks_retry_witness :
  submit Sample.env_accepting Sample.project tt "run.sh"%string "default"
    false false tt
    (submit (Sample.env_raising (OtherException "qsub")) Sample.project tt
       "run.sh"%string "default" false false tt Sample.fresh).2
  = (Returns false,
     (submit (Sample.env_raising (OtherException "qsub")) Sample.project tt
        "run.sh"%string "default" false false tt Sample.fresh).2).
Proof.
  apply (submit_error_blocks_retry (Sample.env_raising (OtherException "qsub"))
           Sample.project tt "run.sh"%string "default"%string false false tt
           Sample.fresh _ (OtherException "qsub")).
  - vm_compute. reflexivity.
  - reflexivity.
Defined.

Lemma update_then_gate_witness :
  passes_gate false
    (status_at_gate Sample.jobsid
       (update_job_status (Some Sample.scheduler_queued) (Sample.recorded 2)).2)
  = false.
Proof.
  apply (proj2 (update_then_gate Sample.scheduler_queued Sample.jobsid
                  (Sample.recorded 2)
                  (update_job_status (Some Sample.scheduler_queued)
                     (Sample.recorded 2)).2
                  ltac:(vm_compute; reflexivity))).
  split.
  - apply list_elem_of_singleton. reflexivity.
  - exists (mkClusterJob Sample.jobsid (Some 6)), 6.
    split_and!; [vm_compute; reflexivity | reflexivity | vm_compute; discriminate].
Defined.
